(** * The payment-channel proxy of raiden

    A shallow embedding of [raiden/network/proxies/payment_channel.py]: the
    class [PaymentChannel], which resolves a channel's participants from the
    ledger's event log, answers queries about it and forwards the lifecycle
    operations to the token-network proxy.

    Python values are modelled as follows: [int] as [Z], [bytes] as
    [list byte], [str] as [string], a [dict] with string keys as
    [gmap string _], exceptions as the type [exn], and a call that may raise
    as a computation of the monad [M], which threads the state that the call
    can change and returns either a value or the exception raised. *)

From Stdlib Require Import ZArith NArith Strings.Byte Strings.Ascii Strings.String.
From stdpp Require Import base gmap list strings.

Local Open Scope Z_scope.

(** ** Python values *)

#[global] Instance byte_eq_decision : EqDecision byte := byte_eq_dec.
#[global] Instance byte_countable : Countable byte :=
  inj_countable Byte.to_N Byte.of_N Byte.of_to_N.

(** An address is a [bytes] object. *)
Abbreviation Address := (list byte).

(** The values found in the argument mapping of a decoded event. *)
Inductive pyval :=
| PyNone
| PyInt (z : Z)
| PyStr (s : string)
| PyBytes (b : list byte).

(** The exceptions this module raises itself ([ValueError], the
    [AssertionError] of an [assert], the [KeyError] and [IndexError] of a
    subscript), and [Raised] for any exception that comes out of a
    collaborator (the decoders, the RPC client, the token network). *)
Inductive exn :=
| ValueError (msg : string)
| AssertionError (msg : option string)
| KeyError (key : string)
| IndexError
| Raised (name : string).

(** The class of an exception, which is what an [except] clause tests. *)
Inductive exn_class :=
| ValueError_class
| AssertionError_class
| KeyError_class
| IndexError_class
| Other_class (name : string).

Definition class_of (e : exn) : exn_class :=
  match e with
  | ValueError _ => ValueError_class
  | AssertionError _ => AssertionError_class
  | KeyError _ => KeyError_class
  | IndexError => IndexError_class
  | Raised name => Other_class name
  end.

Definition message_of (e : exn) : option string :=
  match e with
  | ValueError msg => Some msg
  | AssertionError msg => msg
  | _ => None
  end.

Inductive result (A : Type) :=
| Return (a : A)
| Raise (e : exn).
Arguments Return {A} a.
Arguments Raise {A} e.

(** ** The data model *)

Module ChannelUniqueID.
Record t := mk { token_address : Address; channel_id : Z }.
End ChannelUniqueID.

(** Modelled from the spec: [raiden.constants.UINT256_MAX], whose module is
    not part of the sources at hand; the spec gives the range of a channel
    id as [0 <= channel_id <= 2^256-1]. *)
Definition UINT256_MAX : Z := 2 ^ 256 - 1.

(** Modelled from the spec: [raiden_contracts.constants.ChannelEvent], the
    event kinds of a channel. *)
Inductive ChannelEvent :=
| OPENED
| DEPOSIT
| WITHDRAW
| BALANCE_PROOF_UPDATED
| CLOSED
| SETTLED
| UNLOCKED.

(** Modelled from the spec: the result of
    [raiden.utils.filters.get_filter_args_for_specific_event_from_channel],
    "a log filter for the event scoped to this channel id". The filter is
    kept as the three arguments it was built from. *)
Record FilterArgs := mkFilterArgs {
  filter_address : Address;
  filter_channel_identifier : Z;
  filter_event_name : ChannelEvent
}.

Definition get_filter_args_for_specific_event_from_channel
    (token_network_address : Address) (channel_identifier : Z)
    (event_name : ChannelEvent) : FilterArgs :=
  mkFilterArgs token_network_address channel_identifier event_name.

(** A decoded event: the name, the argument mapping and the block number. *)
Record DecodedEvent := mkDecodedEvent {
  event : string;
  args : gmap string pyval;
  blockNumber : Z
}.

(** ** The calls this module makes

    Every call that leaves the module is recorded, with its arguments, in
    the order in which it is made: the calls to the token network and its
    RPC client, and the acquisitions and releases of a lock of the token
    network's registry. *)
Inductive Call :=
| call_getLogs (filter_args : FilterArgs)
| call_new_filter (contract_address : Address) (topics : list (option string))
    (from_block to_block : pyval)
| call_detail (participant1 participant2 : Address) (channel_unique_id : ChannelUniqueID.t)
| call_channel_is_opened (participant1 participant2 : Address)
    (channel_unique_id : ChannelUniqueID.t)
| call_channel_is_closed (participant1 participant2 : Address)
    (channel_unique_id : ChannelUniqueID.t)
| call_channel_is_settled (participant1 participant2 : Address)
    (channel_unique_id : ChannelUniqueID.t)
| call_closing_address (participant1 participant2 : Address)
    (channel_unique_id : ChannelUniqueID.t)
| call_can_transfer (participant1 participant2 : Address)
    (channel_unique_id : ChannelUniqueID.t)
| call_set_total_deposit (channel_unique_id : ChannelUniqueID.t) (total_deposit : Z)
    (partner : Address)
| call_close (channel_unique_id : ChannelUniqueID.t) (partner : Address)
    (balance_hash : list byte) (nonce : Z) (additional_hash signature : list byte)
| call_update_transfer (channel_unique_id : ChannelUniqueID.t) (partner : Address)
    (balance_hash : list byte) (nonce : Z)
    (additional_hash closing_signature non_closing_signature : list byte)
| call_unlock (channel_unique_id : ChannelUniqueID.t) (partner : Address)
    (merkle_tree_leaves : list byte)
| call_settle (channel_unique_id : ChannelUniqueID.t)
    (transferred_amount locked_amount : Z) (locksroot : list byte) (partner : Address)
    (partner_transferred_amount partner_locked_amount : Z)
    (partner_locksroot : list byte)
| lock_acquire (key : Address)
| lock_release (key : Address).

(** A call that submits a transaction to the ledger. *)
Definition is_submission (c : Call) : bool :=
  match c with
  | call_set_total_deposit _ _ _
  | call_close _ _ _ _ _ _
  | call_update_transfer _ _ _ _ _ _ _
  | call_unlock _ _ _
  | call_settle _ _ _ _ _ _ _ _ => true
  | _ => false
  end.

(** ** The token network

    The collaborator is an object handed to the constructor. Its methods
    read and change a world [W] (the ledger and the node's connection to
    it) that this module never looks into. The registry of locks
    [channel_operations_lock] of the token network is mutable and shared, so
    it lives in the state ([registry] below) and not in this record. *)
Module TokenNetwork.
Record t {W RawLog ChannelDetails Filter : Type} := mk {
    address : Address;
    node_address : Address;
    (* token_network.proxy.contract.web3.eth.getLogs *)
    getLogs : FilterArgs -> W -> result (list RawLog) * W;
    (* token_network.client.new_filter *)
    new_filter : Address -> list (option string) -> pyval -> pyval ->
                 W -> result Filter * W;
    detail : Address -> Address -> ChannelUniqueID.t -> W -> result ChannelDetails * W;
    channel_is_opened : Address -> Address -> ChannelUniqueID.t -> W -> result bool * W;
    channel_is_closed : Address -> Address -> ChannelUniqueID.t -> W -> result bool * W;
    channel_is_settled : Address -> Address -> ChannelUniqueID.t -> W -> result bool * W;
    closing_address : Address -> Address -> ChannelUniqueID.t -> W -> result Address * W;
    can_transfer : Address -> Address -> ChannelUniqueID.t -> W -> result bool * W;
    set_total_deposit : ChannelUniqueID.t -> Z -> Address -> W -> result unit * W;
    close : ChannelUniqueID.t -> Address -> list byte -> Z -> list byte -> list byte ->
            W -> result unit * W;
    update_transfer : ChannelUniqueID.t -> Address -> list byte -> Z -> list byte ->
                      list byte -> list byte -> W -> result unit * W;
    unlock : ChannelUniqueID.t -> Address -> list byte -> W -> result unit * W;
    settle : ChannelUniqueID.t -> Z -> Z -> list byte -> Address -> Z -> Z -> list byte ->
             W -> result unit * W
  }.
Arguments t : clear implicits.
End TokenNetwork.

(** ** State and the monad of calls *)

Section Monad.
Context {S : Type}.

Definition M (A : Type) : Type := S -> result A * S.

Definition ret {A} (a : A) : M A := fun s => (Return a, s).

Definition raise {A} (e : exn) : M A := fun s => (Raise e, s).

Definition bind {A B} (m : M A) (k : A -> M B) : M B :=
  fun s =>
    match m s with
    | (Return a, s') => k a s'
    | (Raise e, s') => (Raise e, s')
    end.

(** A function that returns or raises without touching the state. *)
Definition lift {A} (r : result A) : M A := fun s => (r, s).

(** [try: body finally: cleanup], for a cleanup that cannot raise. *)
Definition finally {A} (body : M A) (cleanup : S -> S) : M A :=
  fun s => let (r, s') := body s in (r, cleanup s').
End Monad.
Arguments M : clear implicits.

Notation "x <- m ;; k" := (bind m (fun x => k))
  (at level 100, m at next level, right associativity).

(** ** Formatting an integer: [f'{n:064x}']

    Python writes the absolute value in lower-case base 16 with as few digits
    as possible, puts a minus sign in front of a negative number, and fills
    with zeros between the sign and the digits up to a total width of 64. A
    number that needs more room is written in full. *)

Definition hex_digit (d : N) : ascii :=
  match d with
  | 0 => "0" | 1 => "1" | 2 => "2" | 3 => "3" | 4 => "4" | 5 => "5" | 6 => "6"
  | 7 => "7" | 8 => "8" | 9 => "9" | 10 => "a" | 11 => "b" | 12 => "c"
  | 13 => "d" | 14 => "e" | _ => "f"
  end%N%char.

(** The [k] lowest base-16 digits of [n], most significant first. *)
Fixpoint hex_fixed (k : nat) (n : N) : string :=
  match k with
  | O => EmptyString
  | S k' => String (hex_digit ((n / 16 ^ N.of_nat k') mod 16)%N) (hex_fixed k' n)
  end.

(** The number of base-16 digits of [n]; zero is written with one digit. *)
Definition hex_width (n : N) : nat :=
  match n with
  | 0%N => 1%nat
  | _ => S (N.to_nat (N.log2 n / 4))
  end.

(** [format(n, 'x')] for [n >= 0]. *)
Definition format_x (n : N) : string := hex_fixed (hex_width n) n.

Fixpoint zeros (k : nat) : string :=
  match k with
  | O => EmptyString
  | S k' => String "0"%char (zeros k')
  end.

Definition format_064x (z : Z) : string :=
  let sign := if z <? 0 then "-"%string else EmptyString in
  let digits := format_x (Z.abs_N z) in
  sign +:+ zeros (64 - String.length sign - String.length digits) +:+ digits.

(** The value of a base-16 digit, and of a string of them. *)
Definition hex_value (c : ascii) : N :=
  let n := N_of_ascii c in
  if (n <? 58)%N then (n - 48)%N else (n - 87)%N.

Fixpoint unhex (acc : N) (s : string) : N :=
  match s with
  | EmptyString => acc
  | String c s' => unhex (acc * 16 + hex_value c)%N s'
  end.

(** Written after the spec ("the zero-padded 256-bit encoding of this
    channel's id", 64 base-16 digits after the prefix [0x]): digit [i],
    counted from the left, is [(c / 16^(63-i)) mod 16]. *)
Definition uint256_topic (c : Z) : string :=
  "0x" +:+ hex_fixed 64 (Z.to_N c).

(** Modelled from the spec: how the ledger matches a subscription's topic
    list against the topics of a log entry ("matching any event where the
    channel-id topic equals the encoding, leaving the event-signature topic
    unconstrained"): position by position, where [None] accepts any topic
    and [Some t] accepts [t] alone; a log entry with fewer topics than the
    filter constrains does not match. *)
Fixpoint topics_match (filter : list (option string)) (topics : list string) : bool :=
  match filter, topics with
  | [], _ => true
  | None :: filter', _ :: topics' => topics_match filter' topics'
  | Some t :: filter', t' :: topics' => bool_decide (t = t') && topics_match filter' topics'
  | _ :: _, [] => false
  end.

(** Modelled from the spec: the topics of a channel event in the ledger's
    log, the signature of the event kind followed by the channel id. *)
Definition event_topics (signature : string) (channel_id : Z) : list string :=
  [signature; uint256_topic channel_id].

(** ** The class [PaymentChannel] *)

Section PaymentChannel.
Context {W RawLog ChannelDetails Filter ABI : Type}.

(** What the module imports and the sources at hand do not contain:
    [decode_event] of [raiden.utils.filters] and [decode_hex] of
    [eth_utils], both of which may raise; the ABI of the token network
    contract, [CONTRACT_MANAGER.get_contract_abi(CONTRACT_TOKEN_NETWORK)];
    and how a [ChannelUniqueID] is printed by [str.format]. *)
Variable decode_event : ABI -> RawLog -> result DecodedEvent.
Variable decode_hex : pyval -> result (list byte).
Variable token_network_abi : ABI.
Variable str_ChannelUniqueID : ChannelUniqueID.t -> string.

Abbreviation TokenNetwork := (TokenNetwork.t W RawLog ChannelDetails Filter).

(** The state outside of the channel object: the collaborator's world, the
    calls made so far, and the registry [channel_operations_lock] of the
    token network, which maps a partner address to a reentrant lock. Of a
    lock the model keeps how many times the running greenlet holds it. *)
Record Env := mkEnv {
  world : W;
  calls : list Call;
  registry : gmap (list byte) nat
}.

(** A call to a method of the collaborator is recorded and run. *)
Definition invoke {A} (c : Call) (method : W -> result A * W) : M Env A :=
  fun e =>
    let (r, w) := method (world e) in
    (r, mkEnv w (calls e ++ [c]) (registry e)).

(** The object: the attributes that [__init__] sets. The lock that
    [__init__] creates for the object itself is fresh, hence not held. *)
Record PaymentChannel := mkPaymentChannel {
  channel_unique_id : ChannelUniqueID.t;
  channel_operations_lock : nat;
  participant1 : Address;
  participant2 : Address;
  token_network : TokenNetwork
}.

(** [d[key]] *)
Definition getitem (d : gmap string pyval) (key : string) : result pyval :=
  match d !! key with
  | Some v => Return v
  | None => Raise (KeyError key)
  end.

(** [l[-1]] *)
Definition getitem_last {A} (l : list A) : result A :=
  match last l with
  | Some x => Return x
  | None => Raise IndexError
  end.

(** [l[0]] *)
Definition getitem_first {A} (l : list A) : result A :=
  match head l with
  | Some x => Return x
  | None => Raise IndexError
  end.

Definition __init__ (token_network : TokenNetwork)
    (channel_unique_id : ChannelUniqueID.t) : M Env PaymentChannel :=
  let channel_id := ChannelUniqueID.channel_id channel_unique_id in
  if (channel_id <? 0) || (channel_id >? UINT256_MAX) then
    raise (ValueError ("channel_identifier of "
                       +:+ str_ChannelUniqueID channel_unique_id
                       +:+ " is not a uint256"))
  else
    let filter_args :=
      get_filter_args_for_specific_event_from_channel
        (TokenNetwork.address token_network) channel_id OPENED in
    events <- invoke (call_getLogs filter_args)
                     (TokenNetwork.getLogs token_network filter_args) ;;
    if negb (0 <? length events)%nat then
      raise (ValueError "Channel is non-existing.")
    else
      raw <- lift (getitem_last events) ;;
      event <- lift (decode_event token_network_abi raw) ;;
      hex1 <- lift (getitem (args event) "participant1") ;;
      participant1 <- lift (decode_hex hex1) ;;
      hex2 <- lift (getitem (args event) "participant2") ;;
      participant2 <- lift (decode_hex hex2) ;;
      let node_address := TokenNetwork.node_address token_network in
      if negb (bool_decide (node_address = participant1)
               || bool_decide (node_address = participant2)) then
        raise (ValueError "One participant must be the node address")
      else
        let '(participant1, participant2) :=
          if bool_decide (node_address = participant2)
          then (participant2, participant1)
          else (participant1, participant2) in
        ret (mkPaymentChannel channel_unique_id 0%nat participant1 participant2
                              token_network).

(** A method runs on a heap: the object it is called on and the state
    outside of it. An attribute is read from the object at the time of the
    call. *)
Record Heap := mkHeap {
  self : PaymentChannel;
  env : Env
}.

Definition this : M Heap PaymentChannel := fun h => (Return (self h), h).

Definition on_env {A} (m : M Env A) : M Heap A :=
  fun h => let (r, e) := m (env h) in (r, mkHeap (self h) e).

(** [RLock.acquire] and [RLock.release] by the greenlet that runs: the lock
    of a key that the registry does not hold yet is created on the spot, not
    held. Waiting for a lock that another greenlet holds is outside of this
    sequential model. *)
Definition rlock_acquire (key : Address) (e : Env) : Env :=
  mkEnv (world e) (calls e ++ [lock_acquire key])
        (<[key := Datatypes.S (default 0%nat (registry e !! key))]> (registry e)).

Definition rlock_release (key : Address) (e : Env) : Env :=
  mkEnv (world e) (calls e ++ [lock_release key])
        (<[key := Nat.pred (default 0%nat (registry e !! key))]> (registry e)).

Definition heap_env (f : Env -> Env) (h : Heap) : Heap := mkHeap (self h) (f (env h)).

(** [with lock: body], where [lock] is the registry's lock of [key]. *)
Definition with_rlock {A} (key : Address) (body : M Heap A) : M Heap A :=
  fun h => finally body (heap_env (rlock_release key)) (heap_env (rlock_acquire key) h).

(** [with self.lock_or_raise(): body] *)
Definition lock_or_raise {A} (body : M Heap A) : M Heap A :=
  self <- this ;;
  with_rlock (participant2 self) body.

Definition channel_identifier : M Heap Z :=
  self <- this ;;
  ret (ChannelUniqueID.channel_id (channel_unique_id self)).

Definition token_address : M Heap Address :=
  self <- this ;;
  ret (ChannelUniqueID.token_address (channel_unique_id self)).

Definition detail : M Heap ChannelDetails :=
  self <- this ;;
  on_env (invoke
    (call_detail (participant1 self) (participant2 self) (channel_unique_id self))
    (TokenNetwork.detail (token_network self)
       (participant1 self) (participant2 self) (channel_unique_id self))).

Definition settle_timeout : M Heap pyval :=
  self <- this ;;
  channel_id <- channel_identifier ;;
  let filter_args :=
    get_filter_args_for_specific_event_from_channel
      (TokenNetwork.address (token_network self)) channel_id OPENED in
  events <- on_env (invoke (call_getLogs filter_args)
                           (TokenNetwork.getLogs (token_network self) filter_args)) ;;
  if negb (0 <? length events)%nat then
    raise (AssertionError (Some "No matching ChannelOpen event found."%string))
  else
    raw <- lift (getitem_last events) ;;
    event <- lift (decode_event token_network_abi raw) ;;
    lift (getitem (args event) "settle_timeout").

Definition close_block_number : M Heap (option Z) :=
  self <- this ;;
  channel_id <- channel_identifier ;;
  let filter_args :=
    get_filter_args_for_specific_event_from_channel
      (TokenNetwork.address (token_network self)) channel_id CLOSED in
  events <- on_env (invoke (call_getLogs filter_args)
                           (TokenNetwork.getLogs (token_network self) filter_args)) ;;
  match events with
  | [] => ret None
  | _ :: _ =>
    if negb (length events =? 1)%nat then
      raise (AssertionError None)
    else
      raw <- lift (getitem_first events) ;;
      event <- lift (decode_event token_network_abi raw) ;;
      ret (Some (blockNumber event))
  end.

Definition opened : M Heap bool :=
  self <- this ;;
  on_env (invoke
    (call_channel_is_opened (participant1 self) (participant2 self) (channel_unique_id self))
    (TokenNetwork.channel_is_opened (token_network self)
       (participant1 self) (participant2 self) (channel_unique_id self))).

Definition closed : M Heap bool :=
  self <- this ;;
  on_env (invoke
    (call_channel_is_closed (participant1 self) (participant2 self) (channel_unique_id self))
    (TokenNetwork.channel_is_closed (token_network self)
       (participant1 self) (participant2 self) (channel_unique_id self))).

Definition settled : M Heap bool :=
  self <- this ;;
  on_env (invoke
    (call_channel_is_settled (participant1 self) (participant2 self) (channel_unique_id self))
    (TokenNetwork.channel_is_settled (token_network self)
       (participant1 self) (participant2 self) (channel_unique_id self))).

Definition closing_address : M Heap Address :=
  self <- this ;;
  on_env (invoke
    (call_closing_address (participant1 self) (participant2 self) (channel_unique_id self))
    (TokenNetwork.closing_address (token_network self)
       (participant1 self) (participant2 self) (channel_unique_id self))).

Definition can_transfer : M Heap bool :=
  self <- this ;;
  on_env (invoke
    (call_can_transfer (participant1 self) (participant2 self) (channel_unique_id self))
    (TokenNetwork.can_transfer (token_network self)
       (participant1 self) (participant2 self) (channel_unique_id self))).

Definition set_total_deposit (total_deposit : Z) : M Heap unit :=
  self <- this ;;
  on_env (invoke
    (call_set_total_deposit (channel_unique_id self) total_deposit (participant2 self))
    (TokenNetwork.set_total_deposit (token_network self)
       (channel_unique_id self) total_deposit (participant2 self))).

Definition close (nonce : Z) (balance_hash additional_hash signature : list byte)
    : M Heap unit :=
  self <- this ;;
  on_env (invoke
    (call_close (channel_unique_id self) (participant2 self)
       balance_hash nonce additional_hash signature)
    (TokenNetwork.close (token_network self)
       (channel_unique_id self) (participant2 self)
       balance_hash nonce additional_hash signature)).

Definition update_transfer (nonce : Z)
    (balance_hash additional_hash partner_signature signature : list byte)
    : M Heap unit :=
  self <- this ;;
  on_env (invoke
    (call_update_transfer (channel_unique_id self) (participant2 self)
       balance_hash nonce additional_hash partner_signature signature)
    (TokenNetwork.update_transfer (token_network self)
       (channel_unique_id self) (participant2 self)
       balance_hash nonce additional_hash partner_signature signature)).

Definition unlock (merkle_tree_leaves : list byte) : M Heap unit :=
  self <- this ;;
  on_env (invoke
    (call_unlock (channel_unique_id self) (participant2 self) merkle_tree_leaves)
    (TokenNetwork.unlock (token_network self)
       (channel_unique_id self) (participant2 self) merkle_tree_leaves)).

Definition settle (transferred_amount locked_amount : Z) (locksroot : list byte)
    (partner_transferred_amount partner_locked_amount : Z)
    (partner_locksroot : list byte) : M Heap unit :=
  self <- this ;;
  on_env (invoke
    (call_settle (channel_unique_id self) transferred_amount locked_amount locksroot
       (participant2 self)
       partner_transferred_amount partner_locked_amount partner_locksroot)
    (TokenNetwork.settle (token_network self)
       (channel_unique_id self) transferred_amount locked_amount locksroot
       (participant2 self)
       partner_transferred_amount partner_locked_amount partner_locksroot)).

Definition all_events_filter (from_block to_block : pyval) : M Heap Filter :=
  channel_id <- channel_identifier ;;
  let channel_topics := [None; Some ("0x" +:+ format_064x channel_id)] in
  self <- this ;;
  channel_filter <- on_env (invoke
    (call_new_filter (TokenNetwork.address (token_network self)) channel_topics
       from_block to_block)
    (TokenNetwork.new_filter (token_network self)
       (TokenNetwork.address (token_network self)) channel_topics
       from_block to_block)) ;;
  ret channel_filter.

(** ** A caller's view

    The operations a caller can ask of a channel object, and the heap that
    each of them leaves, whether it returns or raises. *)
Inductive Operation :=
| op_channel_identifier
| op_token_address
| op_detail
| op_settle_timeout
| op_close_block_number
| op_opened
| op_closed
| op_settled
| op_closing_address
| op_can_transfer
| op_set_total_deposit (total_deposit : Z)
| op_close (nonce : Z) (balance_hash additional_hash signature : list byte)
| op_update_transfer (nonce : Z)
    (balance_hash additional_hash partner_signature signature : list byte)
| op_unlock (merkle_tree_leaves : list byte)
| op_settle (transferred_amount locked_amount : Z) (locksroot : list byte)
    (partner_transferred_amount partner_locked_amount : Z)
    (partner_locksroot : list byte)
| op_all_events_filter (from_block to_block : pyval)
| op_lock_or_raise (body : Operation).

Definition forget {A} (m : M Heap A) : M Heap unit :=
  fun h => let (r, h') := m h in
           (match r with Return _ => Return tt | Raise e => Raise e end, h').

Fixpoint perform (op : Operation) : M Heap unit :=
  match op with
  | op_channel_identifier => forget channel_identifier
  | op_token_address => forget token_address
  | op_detail => forget detail
  | op_settle_timeout => forget settle_timeout
  | op_close_block_number => forget close_block_number
  | op_opened => forget opened
  | op_closed => forget closed
  | op_settled => forget settled
  | op_closing_address => forget closing_address
  | op_can_transfer => forget can_transfer
  | op_set_total_deposit total_deposit => set_total_deposit total_deposit
  | op_close nonce balance_hash additional_hash signature =>
      close nonce balance_hash additional_hash signature
  | op_update_transfer nonce balance_hash additional_hash partner_signature signature =>
      update_transfer nonce balance_hash additional_hash partner_signature signature
  | op_unlock merkle_tree_leaves => unlock merkle_tree_leaves
  | op_settle transferred_amount locked_amount locksroot
      partner_transferred_amount partner_locked_amount partner_locksroot =>
      settle transferred_amount locked_amount locksroot
        partner_transferred_amount partner_locked_amount partner_locksroot
  | op_all_events_filter from_block to_block =>
      forget (all_events_filter from_block to_block)
  | op_lock_or_raise body => lock_or_raise (perform body)
  end.

(** The heap after a sequence of operations, each run to its end whether
    it returns or raises. *)
Definition perform_all (ops : list Operation) (h : Heap) : Heap :=
  fold_left (fun h op => snd (perform op h)) ops h.

(** The five operations that change the ledger. *)
Definition is_mutating (op : Operation) : bool :=
  match op with
  | op_set_total_deposit _
  | op_close _ _ _ _
  | op_update_transfer _ _ _ _ _
  | op_unlock _
  | op_settle _ _ _ _ _ _ => true
  | _ => false
  end.

(** The lock discipline as a property of a sequence of calls: every
    submission to the ledger is made while the lock of [partner] is held,
    that is after an acquisition that no release has undone yet. [held] is
    the number of times the lock is held before the first call. *)
Fixpoint submissions_locked (partner : Address) (held : nat) (cs : list Call) : bool :=
  match cs with
  | [] => true
  | c :: cs' =>
    match c with
    | lock_acquire key =>
        submissions_locked partner
          (if bool_decide (key = partner) then Datatypes.S held else held) cs'
    | lock_release key =>
        submissions_locked partner
          (if bool_decide (key = partner) then Nat.pred held else held) cs'
    | _ =>
        (negb (is_submission c) || (0 <? held)%nat)
        && submissions_locked partner held cs'
    end
  end.

(** A computation that leaves the object as it found it, whether it returns
    or raises. *)
Definition keeps_self {A} (m : M Heap A) : Prop :=
  forall h, self (snd (m h)) = self h.

End PaymentChannel.

Arguments mkEnv {W} world calls registry.
Arguments Env W : clear implicits.

(** ** The errors by the names the design gives them

    The three errors of the constructor, as the source raises them. *)
Definition InvalidChannelID (printed : string) : exn :=
  ValueError ("channel_identifier of " +:+ printed +:+ " is not a uint256").

Definition ChannelNotFound : exn := ValueError "Channel is non-existing.".

Definition NotAParticipant : exn :=
  ValueError "One participant must be the node address".

(** The partner that a submission names. *)
Definition partner_of (c : Call) : option Address :=
  match c with
  | call_set_total_deposit _ _ partner
  | call_close _ partner _ _ _ _
  | call_update_transfer _ partner _ _ _ _ _
  | call_unlock _ partner _
  | call_settle _ _ _ _ partner _ _ _ => Some partner
  | _ => None
  end.

(** An acquisition or a release of a lock of the registry. *)
Definition is_lock_call (c : Call) : bool :=
  match c with
  | lock_acquire _ | lock_release _ => true
  | _ => false
  end.

(** A call that neither submits to the ledger nor touches a lock: a log
    query, a subscription or a state query. *)
Definition is_read_call (c : Call) : bool :=
  negb (is_submission c) && negb (is_lock_call c).

(** The operations that are neither one of the five mutating ones nor run
    under [lock_or_raise]. *)
Definition is_query (op : Operation) : bool :=
  match op with
  | op_lock_or_raise _ => false
  | _ => negb (is_mutating op)
  end.

(** How many times the lock of [key] is held. *)
Definition hold_count (reg : gmap (list byte) nat) (key : Address) : nat :=
  default 0%nat (reg !! key).

(** A computation that leaves the registry of locks as it found it and
    makes only calls that satisfy [P], whether it returns or raises. *)
Definition emits {W RawLog ChannelDetails Filter A : Type} (P : Call -> bool)
    (m : M (@Heap W RawLog ChannelDetails Filter) A) : Prop :=
  forall h,
    registry (env (snd (m h))) = registry (env h)
    /\ exists cs, calls (env (snd (m h))) = calls (env h) ++ cs /\ forallb P cs = true.


Section Resolution.
Context {W RawLog ChannelDetails Filter ABI : Type}.
Variable decode_event : ABI -> RawLog -> result DecodedEvent.
Variable decode_hex : pyval -> result (list byte).
Variable token_network_abi : ABI.

(** The query for the event [event_name] of the channel, made in the world
    [w], returns the entries [events] and leaves the world [w']. *)
Definition query_returns (token_network : TokenNetwork.t W RawLog ChannelDetails Filter)
    (channel_id : Z) (event_name : ChannelEvent) (w : W)
    (events : list RawLog) (w' : W) : Prop :=
  TokenNetwork.getLogs token_network
    (get_filter_args_for_specific_event_from_channel
       (TokenNetwork.address token_network) channel_id event_name) w
  = (Return events, w').

(** The last of the entries decodes to [decoded]. *)
Definition last_decodes_to (events : list RawLog) (decoded : DecodedEvent) : Prop :=
  exists raw, last events = Some raw /\ decode_event token_network_abi raw = Return decoded.

(** The decoded event lists the participants [p1] and [p2], in this order. *)
Definition lists_participants (decoded : DecodedEvent) (p1 p2 : Address) : Prop :=
  exists hex1 hex2,
    args decoded !! "participant1" = Some hex1 /\ decode_hex hex1 = Return p1 /\
    args decoded !! "participant2" = Some hex2 /\ decode_hex hex2 = Return p2.

(** The filter of the Opened event of a channel. *)
Definition opened_filter (token_network : TokenNetwork.t W RawLog ChannelDetails Filter)
    (channel_unique_id : ChannelUniqueID.t) : FilterArgs :=
  get_filter_args_for_specific_event_from_channel
    (TokenNetwork.address token_network)
    (ChannelUniqueID.channel_id channel_unique_id) OPENED.

(** The environment after one call [c] that left the world [w']. *)
Definition after_call (c : Call) (e : Env W) (w' : W) : Env W :=
  mkEnv w' (calls e ++ [c]) (registry e).

End Resolution.

(** ** A ledger to run the module on

    A world that is a list of log entries, oldest first, each with the event
    kind and channel it belongs to and the event it decodes to; a token
    network whose log query selects the entries of the filter's channel and
    event kind, and whose other methods accept every call and change
    nothing. *)
Module Sample.

Record LogEntry := mkLogEntry {
  entry_event : ChannelEvent;
  entry_channel : Z;
  entry_decoded : DecodedEvent
}.

#[global] Instance ChannelEvent_eq_dec : EqDecision ChannelEvent.
Proof. solve_decision. Defined.

Definition selects (filter_args : FilterArgs) (entry : LogEntry) : bool :=
  bool_decide (filter_event_name filter_args = entry_event entry)
  && bool_decide (filter_channel_identifier filter_args = entry_channel entry).

Definition decode_event (abi : unit) (raw : LogEntry) : result DecodedEvent :=
  Return (entry_decoded raw).

(** Addresses of one byte, written as [0xaa], [0xbb] and [0xcc]. *)
Definition decode_hex (v : pyval) : result (list byte) :=
  match v with
  | PyStr "0xaa" => Return [xaa]
  | PyStr "0xbb" => Return [xbb]
  | PyStr "0xcc" => Return [xcc]
  | _ => Raise (Raised "TypeError")
  end.

Definition str_ChannelUniqueID (c : ChannelUniqueID.t) : string := "ChannelUniqueID".

Definition token_network (node : Address)
    : TokenNetwork.t (list LogEntry) LogEntry unit unit :=
  TokenNetwork.mk (list LogEntry) LogEntry unit unit
    [x01] node
    (fun filter_args w => (Return (List.filter (selects filter_args) w), w))
    (fun _ _ _ _ w => (Return tt, w))
    (fun _ _ _ w => (Return tt, w))
    (fun _ _ _ w => (Return true, w))
    (fun _ _ _ w => (Return false, w))
    (fun _ _ _ w => (Return false, w))
    (fun _ _ _ w => (Return [], w))
    (fun _ _ _ w => (Return true, w))
    (fun _ _ _ w => (Return tt, w))
    (fun _ _ _ _ _ _ w => (Return tt, w))
    (fun _ _ _ _ _ _ _ w => (Return tt, w))
    (fun _ _ _ w => (Return tt, w))
    (fun _ _ _ _ _ _ _ _ w => (Return tt, w)).

Definition opened_event (p1 p2 : string) (timeout : Z) (block : Z) : DecodedEvent :=
  mkDecodedEvent "ChannelOpened"
    (<["participant1" := PyStr p1]>
       (<["participant2" := PyStr p2]>
          (<["settle_timeout" := PyInt timeout]> ∅)))
    block.

Definition closed_event (block : Z) : DecodedEvent :=
  mkDecodedEvent "ChannelClosed" ∅ block.

(** Channel 7 between [0xaa] and [0xbb], opened in block 900. *)
Definition channel7 : ChannelUniqueID.t := ChannelUniqueID.mk [x0f] 7.

Definition ledger_open : list LogEntry :=
  [mkLogEntry OPENED 7 (opened_event "0xaa" "0xbb" 500 900)].

(** The same channel, closed in block 1000. *)
Definition ledger_closed : list LogEntry :=
  ledger_open ++ [mkLogEntry CLOSED 7 (closed_event 1000)].

(** A log with two Closed events for the channel. *)
Definition ledger_closed_twice : list LogEntry :=
  ledger_closed ++ [mkLogEntry CLOSED 7 (closed_event 1001)].

(** A log whose Opened event names the node [0xbb] twice. *)
Definition ledger_self : list LogEntry :=
  [mkLogEntry OPENED 7 (opened_event "0xbb" "0xbb" 500 900)].

Definition start (w : list LogEntry) : Env (list LogEntry) := mkEnv w [] ∅.

Definition init (node : Address) (c : ChannelUniqueID.t) (w : list LogEntry)
    : result PaymentChannel * Env (list LogEntry) :=
  __init__ decode_event decode_hex tt str_ChannelUniqueID (token_network node) c (start w).

(** The object that the node [0xbb] gets for channel 7. *)
Definition channel7_of_bb : PaymentChannel :=
  mkPaymentChannel channel7 0%nat [xbb] [xaa] (token_network [xbb]).

(** A heap with that object and a fresh environment over the ledger [w]. *)
Definition heap (w : list LogEntry) : Heap := mkHeap channel7_of_bb (start w).

(** Channel 7 opened twice: first between [0xcc] and [0xaa], then between
    [0xaa] and [0xbb]. *)
Definition ledger_reopened : list LogEntry :=
  mkLogEntry OPENED 7 (opened_event "0xcc" "0xaa" 100 10) :: ledger_open.

(** The Opened event of [ledger_open] with the participants the other way
    round. *)
Definition ledger_swapped : list LogEntry :=
  [mkLogEntry OPENED 7 (opened_event "0xbb" "0xaa" 500 900)].

(** Opened events that lack arguments, or whose addresses do not decode. *)
Definition ledger_no_args : list LogEntry :=
  [mkLogEntry OPENED 7 (mkDecodedEvent "ChannelOpened" ∅ 900)].

Definition ledger_no_participant2 : list LogEntry :=
  [mkLogEntry OPENED 7
     (mkDecodedEvent "ChannelOpened" (<["participant1" := PyStr "0xaa"]> ∅) 900)].

Definition ledger_bad_address : list LogEntry :=
  [mkLogEntry OPENED 7 (opened_event "0xzz" "0xbb" 500 900)].

Definition ledger_bad_partner : list LogEntry :=
  [mkLogEntry OPENED 7 (opened_event "0xbb" "0xzz" 500 900)].

(** A decoder that rejects every entry, and a token network whose log query
    fails. *)
Definition failing_decode_event (abi : unit) (raw : LogEntry) : result DecodedEvent :=
  Raise (Raised "DecodeError").

Definition offline_network (node : Address)
    : TokenNetwork.t (list LogEntry) LogEntry unit unit :=
  TokenNetwork.mk (list LogEntry) LogEntry unit unit
    [x01] node
    (fun filter_args w => (Raise (Raised "ConnectionError"), w))
    (fun _ _ _ _ w => (Return tt, w))
    (fun _ _ _ w => (Return tt, w))
    (fun _ _ _ w => (Return true, w))
    (fun _ _ _ w => (Return false, w))
    (fun _ _ _ w => (Return false, w))
    (fun _ _ _ w => (Return [], w))
    (fun _ _ _ w => (Return true, w))
    (fun _ _ _ w => (Return tt, w))
    (fun _ _ _ _ _ _ w => (Return tt, w))
    (fun _ _ _ _ _ _ _ w => (Return tt, w))
    (fun _ _ _ w => (Return tt, w))
    (fun _ _ _ _ _ _ _ _ w => (Return tt, w)).

(** The object that the node [0xaa] gets for channel 7. *)
Definition channel7_of_aa : PaymentChannel :=
  mkPaymentChannel channel7 0%nat [xaa] [xbb] (token_network [xaa]).

End Sample.

Example sample_init :
  Sample.init [xbb] Sample.channel7 Sample.ledger_open
  = (Return Sample.channel7_of_bb,
     mkEnv Sample.ledger_open
       [call_getLogs (mkFilterArgs [x01] 7 OPENED)] ∅).
Proof. reflexivity. Qed.

Example sample_format_7 :
  format_064x 7 = "0000000000000000000000000000000000000000000000000000000000000007"%string.
Proof. reflexivity. Qed.

Example sample_format_max :
  format_064x UINT256_MAX
  = "ffffffffffffffffffffffffffffffffffffffffffffffffffffffffffffffff"%string.
Proof. vm_compute. reflexivity. Qed.

Example sample_format_negative :
  format_064x (-255)
  = "-0000000000000000000000000000000000000000000000000000000000000ff"%string.
Proof. vm_compute. reflexivity. Qed.

Example sample_format_wide :
  format_064x (2 ^ 256)
  = "10000000000000000000000000000000000000000000000000000000000000000"%string.
Proof. vm_compute. reflexivity. Qed.

(** ** Construction *)

Section Construction.
Context {W RawLog ChannelDetails Filter ABI : Type}.
Variable decode_event : ABI -> RawLog -> result DecodedEvent.
Variable decode_hex : pyval -> result (list byte).
Variable token_network_abi : ABI.
Variable str_ChannelUniqueID : ChannelUniqueID.t -> string.

Let TN := TokenNetwork.t W RawLog ChannelDetails Filter.
Let init := @__init__ W RawLog ChannelDetails Filter ABI
              decode_event decode_hex token_network_abi str_ChannelUniqueID.

(** The environment after the one log query of the constructor. *)
Let queried (tn : TN) (cuid : ChannelUniqueID.t) (e : Env W) (w' : W) : Env W :=
  after_call (call_getLogs (opened_filter tn cuid)) e w'.

Lemma range_test_false (z : Z) :
  0 <= z <= UINT256_MAX -> (z <? 0) || (z >? UINT256_MAX) = false.
Proof.
  intros [Hlo Hhi]. apply orb_false_iff. split.
  - now apply Z.ltb_ge.
  - rewrite Z.gtb_ltb. now apply Z.ltb_ge.
Qed.

Lemma range_test_true (z : Z) :
  z < 0 \/ UINT256_MAX < z -> (z <? 0) || (z >? UINT256_MAX) = true.
Proof.
  intros [Hlo | Hhi]; apply orb_true_iff.
  - left. now apply Z.ltb_lt.
  - right. rewrite Z.gtb_ltb. now apply Z.ltb_lt.
Qed.

Lemma init_out_of_range (tn : TN) (cuid : ChannelUniqueID.t) (e : Env W) :
  ChannelUniqueID.channel_id cuid < 0 \/ UINT256_MAX < ChannelUniqueID.channel_id cuid ->
  init tn cuid e = (Raise (InvalidChannelID (str_ChannelUniqueID cuid)), e).
Proof.
  intros Hrange. unfold init, __init__.
  now rewrite (range_test_true _ Hrange).
Qed.

(** Past the range test the constructor queries the log, once, and makes
    no other call, whatever the outcome. *)
Lemma init_in_range (tn : TN) (cuid : ChannelUniqueID.t) (e : Env W) :
  0 <= ChannelUniqueID.channel_id cuid <= UINT256_MAX ->
  exists r,
    init tn cuid e
    = (r, queried tn cuid e
            (snd (TokenNetwork.getLogs tn (opened_filter tn cuid) (world e)))).
Proof.
  intros Hrange. unfold init, __init__.
  rewrite (range_test_false _ Hrange). unfold bind at 1. unfold invoke.
  fold (opened_filter tn cuid).
  destruct (TokenNetwork.getLogs tn (opened_filter tn cuid) (world e))
    as [[events | err] w']; cbn [snd]; [| eauto].
  destruct (negb (0 <? length events)%nat); [unfold raise; eauto |].
  unfold bind, lift, raise, ret.
  repeat match goal with
         | |- context [match ?r with Return _ => _ | Raise _ => _ end] => destruct r
         | |- context [if ?b then _ else _] => destruct b
         end; eauto.
Qed.

Lemma init_no_event (tn : TN) (cuid : ChannelUniqueID.t) (e : Env W) (w' : W) :
  0 <= ChannelUniqueID.channel_id cuid <= UINT256_MAX ->
  query_returns tn (ChannelUniqueID.channel_id cuid) OPENED (world e) [] w' ->
  init tn cuid e = (Raise ChannelNotFound, queried tn cuid e w').
Proof.
  intros Hrange Hquery. unfold init, __init__.
  rewrite (range_test_false _ Hrange). unfold bind at 1. unfold invoke.
  unfold query_returns in Hquery. now rewrite Hquery.
Qed.

(** With an entry whose last decodes to an event that lists two
    participants, the constructor comes down to the test of the node's
    address against them. *)
Lemma init_resolved (tn : TN) (cuid : ChannelUniqueID.t) (e : Env W)
    (events : list RawLog) (w' : W) (decoded : DecodedEvent) (p1 p2 : Address) :
  0 <= ChannelUniqueID.channel_id cuid <= UINT256_MAX ->
  query_returns tn (ChannelUniqueID.channel_id cuid) OPENED (world e) events w' ->
  last_decodes_to decode_event token_network_abi events decoded ->
  lists_participants decode_hex decoded p1 p2 ->
  init tn cuid e =
    (if negb (bool_decide (TokenNetwork.node_address tn = p1)
              || bool_decide (TokenNetwork.node_address tn = p2))
     then Raise NotAParticipant
     else if bool_decide (TokenNetwork.node_address tn = p2)
          then Return (mkPaymentChannel cuid 0%nat p2 p1 tn)
          else Return (mkPaymentChannel cuid 0%nat p1 p2 tn),
     queried tn cuid e w').
Proof.
  intros Hrange Hquery (raw & Hlast & Hdecode) (hex1 & hex2 & Hk1 & Hd1 & Hk2 & Hd2).
  unfold init, __init__.
  rewrite (range_test_false _ Hrange). unfold bind at 1. unfold invoke.
  unfold query_returns in Hquery. rewrite Hquery.
  assert (Hlen : negb (0 <? length events)%nat = false).
  { destruct events; [discriminate Hlast | reflexivity]. }
  rewrite Hlen.
  unfold bind, lift, getitem_last, getitem.
  rewrite Hlast; cbv beta iota. rewrite Hdecode; cbv beta iota.
  rewrite Hk1; cbv beta iota. rewrite Hd1; cbv beta iota.
  rewrite Hk2; cbv beta iota. rewrite Hd2; cbv beta iota.
  clear Hlen.
  destruct (bool_decide (TokenNetwork.node_address tn = p1)),
           (bool_decide (TokenNetwork.node_address tn = p2)); reflexivity.
Qed.

(** What a constructor that returned has gone through. *)
Lemma init_returns (tn : TN) (cuid : ChannelUniqueID.t) (e e' : Env W)
    (pc : PaymentChannel) :
  init tn cuid e = (Return pc, e') ->
  0 <= ChannelUniqueID.channel_id cuid <= UINT256_MAX
  /\ exists events w' decoded p1 p2,
       query_returns tn (ChannelUniqueID.channel_id cuid) OPENED (world e) events w'
       /\ last_decodes_to decode_event token_network_abi events decoded
       /\ lists_participants decode_hex decoded p1 p2
       /\ (TokenNetwork.node_address tn = p1 \/ TokenNetwork.node_address tn = p2)
       /\ e' = queried tn cuid e w'.
Proof.
  intros Hinit.
  assert (Hrange : 0 <= ChannelUniqueID.channel_id cuid <= UINT256_MAX).
  { destruct (Z_lt_ge_dec (ChannelUniqueID.channel_id cuid) 0) as [Hlo | Hlo].
    - rewrite init_out_of_range in Hinit by (now left). discriminate Hinit.
    - destruct (Z_lt_ge_dec UINT256_MAX (ChannelUniqueID.channel_id cuid)) as [Hhi | Hhi].
      + rewrite init_out_of_range in Hinit by (now right). discriminate Hinit.
      + split; [now apply Z.ge_le | now apply Z.ge_le]. }
  split; [exact Hrange |].
  destruct (TokenNetwork.getLogs tn (opened_filter tn cuid) (world e))
    as [[events | err] w'] eqn:Hquery.
  2: { unfold init, __init__ in Hinit. rewrite (range_test_false _ Hrange) in Hinit.
       unfold bind at 1 in Hinit. unfold invoke in Hinit.
       unfold opened_filter in Hquery. rewrite Hquery in Hinit. discriminate Hinit. }
  destruct (last events) as [raw |] eqn:Hlast.
  2: { apply last_None in Hlast. subst events.
       rewrite (init_no_event tn cuid e w' Hrange Hquery) in Hinit. discriminate Hinit. }
  assert (Hstep : init tn cuid e
                  = (raw <- lift (Return raw) ;;
                     event <- lift (decode_event token_network_abi raw) ;;
                     hex1 <- lift (getitem (args event) "participant1") ;;
                     p1 <- lift (decode_hex hex1) ;;
                     hex2 <- lift (getitem (args event) "participant2") ;;
                     p2 <- lift (decode_hex hex2) ;;
                     if negb (bool_decide (TokenNetwork.node_address tn = p1)
                              || bool_decide (TokenNetwork.node_address tn = p2))
                     then raise NotAParticipant
                     else ret (if bool_decide (TokenNetwork.node_address tn = p2)
                               then mkPaymentChannel cuid 0%nat p2 p1 tn
                               else mkPaymentChannel cuid 0%nat p1 p2 tn))
                      (queried tn cuid e w')).
  { unfold init, __init__. rewrite (range_test_false _ Hrange).
    unfold bind at 1. unfold invoke. unfold opened_filter in Hquery. rewrite Hquery.
    assert (Hlen : negb (0 <? length events)%nat = false).
    { destruct events; [discriminate Hlast | reflexivity]. }
    rewrite Hlen. unfold getitem_last. rewrite Hlast.
    unfold bind, lift, raise, ret.
    destruct (decode_event token_network_abi raw) as [ev |]; [| reflexivity].
    destruct (getitem (args ev) "participant1") as [h1 |]; [| reflexivity].
    destruct (decode_hex h1) as [q1 |]; [| reflexivity].
    destruct (getitem (args ev) "participant2") as [h2 |]; [| reflexivity].
    destruct (decode_hex h2) as [q2 |]; [| reflexivity].
    destruct (bool_decide (TokenNetwork.node_address tn = q1)),
             (bool_decide (TokenNetwork.node_address tn = q2)); reflexivity. }
  rewrite Hstep in Hinit. clear Hstep. unfold bind, lift, raise, ret in Hinit.
  destruct (decode_event token_network_abi raw) as [ev |] eqn:Hdecode;
    [| discriminate Hinit].
  unfold getitem in Hinit.
  destruct (args ev !! "participant1") as [h1 |] eqn:Hk1; [| discriminate Hinit].
  destruct (decode_hex h1) as [q1 |] eqn:Hd1; [| discriminate Hinit].
  destruct (args ev !! "participant2") as [h2 |] eqn:Hk2; [| discriminate Hinit].
  destruct (decode_hex h2) as [q2 |] eqn:Hd2; [| discriminate Hinit].
  exists events, w', ev, q1, q2.
  split; [exact Hquery |].
  split; [exists raw; split; assumption |].
  split; [exists h1, h2; repeat split; assumption |].
  destruct (bool_decide (TokenNetwork.node_address tn = q1)) eqn:H1;
    destruct (bool_decide (TokenNetwork.node_address tn = q2)) eqn:H2;
    cbn in Hinit; try discriminate Hinit;
    (split; [| now inversion Hinit]).
  - left. now apply bool_decide_eq_true in H1.
  - left. now apply bool_decide_eq_true in H1.
  - right. now apply bool_decide_eq_true in H2.
Qed.

(** C1: for a channel id in the range of the data model whose Opened-event
    query returns entries, the last of which decodes to an event that lists
    the node's address as one of its two participants, the constructor
    returns an object; its [participant1] is the node's address and its
    [participant2] is the other participant of the event, whether the event
    lists the node first or second. *)
Theorem C1_local_node_becomes_participant1
    (tn : TN) (cuid : ChannelUniqueID.t) (e : Env W)
    (events : list RawLog) (w' : W) (decoded : DecodedEvent) (p1 p2 : Address) :
  0 <= ChannelUniqueID.channel_id cuid <= UINT256_MAX ->
  query_returns tn (ChannelUniqueID.channel_id cuid) OPENED (world e) events w' ->
  last_decodes_to decode_event token_network_abi events decoded ->
  lists_participants decode_hex decoded p1 p2 ->
  TokenNetwork.node_address tn = p1 \/ TokenNetwork.node_address tn = p2 ->
  exists pc,
    __init__ decode_event decode_hex token_network_abi str_ChannelUniqueID tn cuid e
    = (Return pc, after_call (call_getLogs (opened_filter tn cuid)) e w')
    /\ channel_unique_id pc = cuid
    /\ participant1 pc = TokenNetwork.node_address tn
    /\ (TokenNetwork.node_address tn = p1 -> participant2 pc = p2)
    /\ (TokenNetwork.node_address tn = p2 -> participant2 pc = p1).
Proof.
  intros Hrange Hquery Hlast Hlists Hnode.
  pose proof (init_resolved tn cuid e events w' decoded p1 p2
                Hrange Hquery Hlast Hlists) as Hinit.
  fold init. rewrite Hinit. clear Hinit.
  destruct (decide (TokenNetwork.node_address tn = p2)) as [H2 | H2].
  - rewrite (bool_decide_eq_true_2 _ H2), orb_true_r. cbn.
    eexists. split; [reflexivity |]. cbn. repeat split; congruence.
  - destruct Hnode as [H1 | H2']; [| contradiction].
    rewrite (bool_decide_eq_true_2 _ H1), (bool_decide_eq_false_2 _ H2). cbn.
    eexists. split; [reflexivity |]. cbn. repeat split; congruence.
Qed.

(** C6: a channel id below 0 or above [UINT256_MAX] makes the constructor
    raise the error of an invalid channel id and leave the environment as it
    was, so that no call has been made; for an id in the range the
    constructor goes on to the log query, which is the one call it makes. *)
Theorem C6_channel_id_range_is_checked_first
    (tn : TN) (cuid : ChannelUniqueID.t) (e : Env W) :
  (ChannelUniqueID.channel_id cuid < 0 \/ UINT256_MAX < ChannelUniqueID.channel_id cuid ->
   __init__ decode_event decode_hex token_network_abi str_ChannelUniqueID tn cuid e
   = (Raise (InvalidChannelID (str_ChannelUniqueID cuid)), e))
  /\ (0 <= ChannelUniqueID.channel_id cuid <= UINT256_MAX ->
      exists r,
        __init__ decode_event decode_hex token_network_abi str_ChannelUniqueID tn cuid e
        = (r, after_call (call_getLogs (opened_filter tn cuid)) e
                (snd (TokenNetwork.getLogs tn (opened_filter tn cuid) (world e))))).
Proof.
  split.
  - apply init_out_of_range.
  - apply init_in_range.
Qed.

(** C7: for a channel id in the range whose Opened-event query returns no
    entry, the constructor raises the error of a channel that does not exist
    and returns no object. *)
Theorem C7_no_opened_event_no_channel
    (tn : TN) (cuid : ChannelUniqueID.t) (e : Env W) (w' : W) :
  0 <= ChannelUniqueID.channel_id cuid <= UINT256_MAX ->
  query_returns tn (ChannelUniqueID.channel_id cuid) OPENED (world e) [] w' ->
  __init__ decode_event decode_hex token_network_abi str_ChannelUniqueID tn cuid e
  = (Raise ChannelNotFound, after_call (call_getLogs (opened_filter tn cuid)) e w').
Proof. apply init_no_event. Qed.

(** C8: when the last Opened event of the channel decodes to two
    participants and the node's address is neither of them, the constructor
    raises the error of a node that is not a participant. *)
Theorem C8_stranger_is_rejected
    (tn : TN) (cuid : ChannelUniqueID.t) (e : Env W)
    (events : list RawLog) (w' : W) (decoded : DecodedEvent) (p1 p2 : Address) :
  0 <= ChannelUniqueID.channel_id cuid <= UINT256_MAX ->
  query_returns tn (ChannelUniqueID.channel_id cuid) OPENED (world e) events w' ->
  last_decodes_to decode_event token_network_abi events decoded ->
  lists_participants decode_hex decoded p1 p2 ->
  TokenNetwork.node_address tn <> p1 ->
  TokenNetwork.node_address tn <> p2 ->
  __init__ decode_event decode_hex token_network_abi str_ChannelUniqueID tn cuid e
  = (Raise NotAParticipant, after_call (call_getLogs (opened_filter tn cuid)) e w').
Proof.
  intros Hrange Hquery Hlast Hlists H1 H2.
  pose proof (init_resolved tn cuid e events w' decoded p1 p2
                Hrange Hquery Hlast Hlists) as Hinit.
  fold init. rewrite Hinit.
  now rewrite (bool_decide_eq_false_2 _ H1), (bool_decide_eq_false_2 _ H2).
Qed.

(** C10: the three failures of the constructor (id out of range, no Opened
    event, node not among the participants) all raise an exception of the
    class [ValueError]; the three exceptions differ in their message only. *)
Theorem C10_constructor_errors_are_value_errors
    (tn : TN) (cuid : ChannelUniqueID.t) (e : Env W) :
  (ChannelUniqueID.channel_id cuid < 0 \/ UINT256_MAX < ChannelUniqueID.channel_id cuid ->
   exists err,
     fst (__init__ decode_event decode_hex token_network_abi str_ChannelUniqueID tn cuid e)
     = Raise err
     /\ err = InvalidChannelID (str_ChannelUniqueID cuid)
     /\ class_of err = ValueError_class)
  /\ (forall w',
      0 <= ChannelUniqueID.channel_id cuid <= UINT256_MAX ->
      query_returns tn (ChannelUniqueID.channel_id cuid) OPENED (world e) [] w' ->
      exists err,
        fst (__init__ decode_event decode_hex token_network_abi str_ChannelUniqueID
               tn cuid e) = Raise err
        /\ err = ChannelNotFound
        /\ class_of err = ValueError_class)
  /\ (forall events w' decoded p1 p2,
      0 <= ChannelUniqueID.channel_id cuid <= UINT256_MAX ->
      query_returns tn (ChannelUniqueID.channel_id cuid) OPENED (world e) events w' ->
      last_decodes_to decode_event token_network_abi events decoded ->
      lists_participants decode_hex decoded p1 p2 ->
      TokenNetwork.node_address tn <> p1 ->
      TokenNetwork.node_address tn <> p2 ->
      exists err,
        fst (__init__ decode_event decode_hex token_network_abi str_ChannelUniqueID
               tn cuid e) = Raise err
        /\ err = NotAParticipant
        /\ class_of err = ValueError_class)
  /\ message_of (InvalidChannelID (str_ChannelUniqueID cuid)) <> message_of ChannelNotFound
  /\ message_of (InvalidChannelID (str_ChannelUniqueID cuid)) <> message_of NotAParticipant
  /\ message_of ChannelNotFound <> message_of NotAParticipant.
Proof.
  split; [| split; [| split]].
  - intros Hrange. fold init. rewrite (init_out_of_range tn cuid e Hrange).
    eexists. repeat split.
  - intros w' Hrange Hquery. fold init. rewrite (init_no_event tn cuid e w' Hrange Hquery).
    eexists. repeat split.
  - intros events w' decoded p1 p2 Hrange Hquery Hlast Hlists H1 H2. fold init.
    rewrite (init_resolved tn cuid e events w' decoded p1 p2 Hrange Hquery Hlast Hlists).
    rewrite (bool_decide_eq_false_2 _ H1), (bool_decide_eq_false_2 _ H2).
    eexists. repeat split.
  - repeat split; discriminate.
Qed.

End Construction.

(** ** The encoding of a channel id as a topic *)

Section Hexadecimal.
Local Open Scope N_scope.

Lemma hex_value_hex_digit (d : N) : d < 16 -> hex_value (hex_digit d) = d.
Proof.
  intros Hd. destruct d as [| p]; [reflexivity |].
  do 4 (destruct p as [p | p |]; try reflexivity); lia.
Qed.

Lemma pow16_succ (k : nat) : 16 ^ N.of_nat (Datatypes.S k) = 16 ^ N.of_nat k * 16.
Proof. rewrite Nat2N.inj_succ, N.pow_succ_r'. apply N.mul_comm. Qed.

Lemma pow16_pos (k : nat) : 0 < 16 ^ N.of_nat k.
Proof. apply N.neq_0_lt_0, N.pow_nonzero. discriminate. Qed.

Lemma hex_fixed_length (k : nat) (n : N) : String.length (hex_fixed k n) = k.
Proof. induction k as [| k IH]; cbn [hex_fixed String.length]; congruence. Qed.

(** Reading back the [k] digits gives the number modulo [16^k]. *)
Lemma unhex_hex_fixed (k : nat) (n acc : N) :
  unhex acc (hex_fixed k n) = acc * 16 ^ N.of_nat k + n mod 16 ^ N.of_nat k.
Proof.
  revert acc. induction k as [| k IH]; intros acc.
  - cbn [hex_fixed unhex]. change (16 ^ N.of_nat 0) with 1.
    rewrite N.mod_1_r. lia.
  - cbn [hex_fixed unhex]. rewrite IH, hex_value_hex_digit.
    + rewrite pow16_succ, N.Div0.mod_mul_r. lia.
    + apply N.mod_lt. discriminate.
Qed.

Lemma hex_fixed_inj (k : nat) (n m : N) :
  n < 16 ^ N.of_nat k -> m < 16 ^ N.of_nat k ->
  hex_fixed k n = hex_fixed k m -> n = m.
Proof.
  intros Hn Hm Heq.
  pose proof (unhex_hex_fixed k n 0) as Hn'.
  pose proof (unhex_hex_fixed k m 0) as Hm'.
  rewrite Heq in Hn'. rewrite Hn' in Hm'.
  rewrite !N.mod_small in Hm' by assumption. lia.
Qed.

(** Digits above the size of the number are zeros. *)
Lemma hex_fixed_pad (j k : nat) (n : N) :
  n < 16 ^ N.of_nat k -> hex_fixed (j + k) n = zeros j +:+ hex_fixed k n.
Proof.
  intros Hn. induction j as [| j IH]; [reflexivity |].
  cbn [Nat.add hex_fixed zeros String.append]. rewrite IH. f_equal.
  rewrite N.div_small; [reflexivity |].
  apply N.lt_le_trans with (1 := Hn).
  apply N.pow_le_mono_r; lia.
Qed.

Lemma pow16_pow2 (k : N) : 16 ^ k = 2 ^ (4 * k).
Proof. now rewrite N.pow_mul_r. Qed.

(** [hex_width] digits are enough for the number, and no fewer are. *)
Lemma hex_width_enough (n : N) : n < 16 ^ N.of_nat (hex_width n).
Proof.
  destruct n as [| p]; [reflexivity |].
  unfold hex_width. set (l := N.log2 (N.pos p)).
  rewrite Nat2N.inj_succ, N2Nat.id, pow16_pow2.
  destruct (N.log2_spec (N.pos p)) as [_ Hlt]; [reflexivity |]. fold l in Hlt.
  apply N.lt_le_trans with (1 := Hlt).
  apply N.pow_le_mono_r; [discriminate |].
  pose proof (N.Div0.div_mod l 4) as Hdiv.
  pose proof (N.mod_lt l 4) as Hmod. lia.
Qed.

Lemma hex_width_minimal (n : N) :
  0 < n -> 16 ^ N.of_nat (Nat.pred (hex_width n)) <= n.
Proof.
  intros Hpos. destruct n as [| p]; [lia |].
  unfold hex_width. set (l := N.log2 (N.pos p)).
  cbn [Nat.pred]. rewrite N2Nat.id, pow16_pow2.
  destruct (N.log2_spec (N.pos p)) as [Hle _]; [reflexivity |]. fold l in Hle.
  apply N.le_trans with (2 := Hle).
  apply N.pow_le_mono_r; [discriminate |].
  apply N.Div0.mul_div_le.
Qed.

Lemma hex_width_uint256 (n : N) : n < 2 ^ 256 -> (hex_width n <= 64)%nat.
Proof.
  intros Hn. destruct n as [| p]; [cbn; lia |].
  unfold hex_width.
  assert (Hlog : N.log2 (N.pos p) < 256) by (apply N.log2_lt_pow2; [reflexivity | exact Hn]).
  assert (Hdiv : N.log2 (N.pos p) / 4 < 64) by (apply N.Div0.div_lt_upper_bound; lia).
  lia.
Qed.

End Hexadecimal.

Lemma uint256_max_to_N (z : Z) :
  0 <= z <= UINT256_MAX -> (Z.to_N z < 2 ^ 256)%N.
Proof.
  intros [Hlo Hhi]. unfold UINT256_MAX in Hhi.
  change (2 ^ 256)%N with (Z.to_N (2 ^ 256)).
  apply Z2N.inj_lt; lia.
Qed.

(** For a channel id in the range, the 64 characters that Python writes are
    the 64 digits of the 256-bit encoding. *)
Lemma format_064x_uint256 (z : Z) :
  0 <= z <= UINT256_MAX -> format_064x z = hex_fixed 64 (Z.to_N z).
Proof.
  intros Hrange. pose proof (uint256_max_to_N z Hrange) as Hn.
  unfold format_064x.
  assert (Hsign : (z <? 0) = false) by (apply Z.ltb_ge; lia).
  rewrite Hsign. cbn [String.length String.append].
  assert (Habs : Z.abs_N z = Z.to_N z) by (destruct z; [reflexivity | reflexivity | lia]).
  rewrite Habs. unfold format_x. rewrite hex_fixed_length.
  pose proof (hex_width_uint256 _ Hn) as Hwidth.
  rewrite <- hex_fixed_pad by apply hex_width_enough.
  change (hex_fixed (64 - 0 - hex_width (Z.to_N z) + hex_width (Z.to_N z)) (Z.to_N z)
          = hex_fixed 64 (Z.to_N z)).
  f_equal. lia.
Qed.

Lemma string_tail_inj (a : ascii) (s s' : string) : String a s = String a s' -> s = s'.
Proof. intros Heq. now inversion Heq. Qed.

Lemma uint256_topic_length (c : Z) : String.length (uint256_topic c) = 66%nat.
Proof.
  change (Datatypes.S (Datatypes.S (String.length (hex_fixed 64 (Z.to_N c)))) = 66%nat).
  now rewrite hex_fixed_length.
Qed.

Lemma uint256_topic_inj (c c' : Z) :
  0 <= c <= UINT256_MAX -> 0 <= c' <= UINT256_MAX ->
  uint256_topic c = uint256_topic c' -> c = c'.
Proof.
  intros Hc Hc' Heq.
  change (String "0" (String "x" (hex_fixed 64 (Z.to_N c)))
          = String "0" (String "x" (hex_fixed 64 (Z.to_N c')))) in Heq.
  do 2 apply string_tail_inj in Heq.
  apply hex_fixed_inj in Heq.
  - apply Z2N.inj; lia.
  - change (16 ^ N.of_nat 64)%N with (2 ^ 256)%N. now apply uint256_max_to_N.
  - change (16 ^ N.of_nat 64)%N with (2 ^ 256)%N. now apply uint256_max_to_N.
Qed.

(** ** Queries and operations *)

Create HintDb frame.

Section Operations.
Context {W RawLog ChannelDetails Filter ABI : Type}.
Variable decode_event : ABI -> RawLog -> result DecodedEvent.
Variable decode_hex : pyval -> result (list byte).
Variable token_network_abi : ABI.
Variable str_ChannelUniqueID : ChannelUniqueID.t -> string.

Let TN := TokenNetwork.t W RawLog ChannelDetails Filter.
Let HeapT := @Heap W RawLog ChannelDetails Filter.

(** A log query made from a method. *)
Lemma query_from_method (h : HeapT) (tn : TN) (filter_args : FilterArgs)
    (r : result (list RawLog)) (w' : W) :
  TokenNetwork.getLogs tn filter_args (world (env h)) = (r, w') ->
  on_env (invoke (call_getLogs filter_args) (TokenNetwork.getLogs tn filter_args)) h
  = (r, mkHeap (self h) (after_call (call_getLogs filter_args) (env h) w')).
Proof. intros Hquery. unfold on_env, invoke. now rewrite Hquery. Qed.

(** C4: [settle_timeout] returns the value stored under [settle_timeout]
    in the arguments of the last Opened event that the log query returns for
    the channel, and raises an [AssertionError] (the violation of a protocol
    invariant, in the design's words) when the query returns no entry. *)
Theorem C4_settle_timeout_of_last_opened_event (h : HeapT) :
  (forall events w' decoded v,
      query_returns (token_network (self h))
        (ChannelUniqueID.channel_id (channel_unique_id (self h))) OPENED
        (world (env h)) events w' ->
      last_decodes_to decode_event token_network_abi events decoded ->
      args decoded !! "settle_timeout" = Some v ->
      settle_timeout decode_event token_network_abi h
      = (Return v,
         mkHeap (self h)
           (after_call
              (call_getLogs (opened_filter (token_network (self h))
                               (channel_unique_id (self h))))
              (env h) w')))
  /\ (forall w',
      query_returns (token_network (self h))
        (ChannelUniqueID.channel_id (channel_unique_id (self h))) OPENED
        (world (env h)) [] w' ->
      settle_timeout decode_event token_network_abi h
      = (Raise (AssertionError (Some "No matching ChannelOpen event found."%string)),
         mkHeap (self h)
           (after_call
              (call_getLogs (opened_filter (token_network (self h))
                               (channel_unique_id (self h))))
              (env h) w'))).
Proof.
  split.
  - intros events w' decoded v Hquery (raw & Hlast & Hdecode) Hkey.
    unfold settle_timeout, channel_identifier, this. unfold bind at 1 2 3.
    cbv beta iota. unfold ret at 1. cbv beta iota. unfold bind at 1.
    rewrite (query_from_method h _ _ _ _ Hquery).
    assert (Hlen : negb (0 <? length events)%nat = false).
    { destruct events; [discriminate Hlast | reflexivity]. }
    rewrite Hlen. unfold bind, lift, getitem_last, getitem.
    rewrite Hlast; cbv beta iota. rewrite Hdecode; cbv beta iota.
    now rewrite Hkey.
  - intros w' Hquery.
    unfold settle_timeout, channel_identifier, this. unfold bind at 1 2 3.
    cbv beta iota. unfold ret at 1. cbv beta iota. unfold bind at 1.
    now rewrite (query_from_method h _ _ _ _ Hquery).
Qed.

(** C3: [close_block_number] returns [None] when the log query for the
    Closed event of the channel returns no entry, the block number of the
    entry when it returns exactly one (and the entry decodes), and raises an
    [AssertionError] (the violation of a protocol invariant, in the design's
    words) instead of returning when it returns more than one. *)
Theorem C3_close_block_number (h : HeapT) :
  let tn := token_network (self h) in
  let channel_id := ChannelUniqueID.channel_id (channel_unique_id (self h)) in
  let closed_filter :=
    get_filter_args_for_specific_event_from_channel
      (TokenNetwork.address tn) channel_id CLOSED in
  (forall w',
      query_returns tn channel_id CLOSED (world (env h)) [] w' ->
      close_block_number decode_event token_network_abi h
      = (Return None,
         mkHeap (self h) (after_call (call_getLogs closed_filter) (env h) w')))
  /\ (forall raw w' decoded,
      query_returns tn channel_id CLOSED (world (env h)) [raw] w' ->
      decode_event token_network_abi raw = Return decoded ->
      close_block_number decode_event token_network_abi h
      = (Return (Some (blockNumber decoded)),
         mkHeap (self h) (after_call (call_getLogs closed_filter) (env h) w')))
  /\ (forall events w',
      query_returns tn channel_id CLOSED (world (env h)) events w' ->
      (1 < length events)%nat ->
      close_block_number decode_event token_network_abi h
      = (Raise (AssertionError None),
         mkHeap (self h) (after_call (call_getLogs closed_filter) (env h) w'))).
Proof.
  intros tn channel_id closed_filter.
  assert (Hstart : forall events w',
             query_returns (token_network (self h))
               (ChannelUniqueID.channel_id (channel_unique_id (self h))) CLOSED
               (world (env h)) events w' ->
             close_block_number decode_event token_network_abi h
             = match events with
               | [] => ret None
               | _ :: _ =>
                 if negb (length events =? 1)%nat then raise (AssertionError None)
                 else
                   raw <- lift (getitem_first events) ;;
                   event <- lift (decode_event token_network_abi raw) ;;
                   ret (Some (blockNumber event))
               end
                 (mkHeap (self h) (after_call (call_getLogs closed_filter) (env h) w'))).
  { subst tn channel_id closed_filter. intros events w' Hquery.
    unfold close_block_number, channel_identifier, this. unfold bind at 1 2 3.
    cbv beta iota. unfold ret at 1. cbv beta iota. unfold bind at 1.
    now rewrite (query_from_method h _ _ _ _ Hquery). }
  split; [| split].
  - intros w' Hquery. now rewrite (Hstart _ _ Hquery).
  - intros raw w' decoded Hquery Hdecode. rewrite (Hstart _ _ Hquery).
    cbn [length Nat.eqb negb]. unfold bind, lift, getitem_first. cbn [head].
    now rewrite Hdecode.
  - intros events w' Hquery Hlen. rewrite (Hstart _ _ Hquery).
    destruct events as [| raw1 [| raw2 events]]; cbn in Hlen; [lia | lia |].
    reflexivity.
Qed.

(** C5: on an object that the constructor returned, [all_events_filter]
    asks the client for a subscription on the token network's address with
    the block range it was given and two topics: the first is left open, the
    second is the 256-bit encoding of the channel id, [0x] followed by 64
    base-16 digits. Such a topic list matches the events of every kind that
    carry this channel id and no event that carries another channel id. *)
Theorem C5_all_events_filter_selects_the_channel
    (tn : TN) (cuid : ChannelUniqueID.t) (e0 e1 e : Env W) (pc : PaymentChannel)
    (from_block to_block : pyval) :
  __init__ decode_event decode_hex token_network_abi str_ChannelUniqueID tn cuid e0
  = (Return pc, e1) ->
  let channel_topics := [None; Some (uint256_topic (ChannelUniqueID.channel_id cuid))] in
  let subscription :=
    call_new_filter (TokenNetwork.address tn) channel_topics from_block to_block in
  (exists r w',
      TokenNetwork.new_filter tn (TokenNetwork.address tn) channel_topics
        from_block to_block (world e) = (r, w')
      /\ all_events_filter from_block to_block (mkHeap pc e)
         = (r, mkHeap pc (after_call subscription e w')))
  /\ String.length (uint256_topic (ChannelUniqueID.channel_id cuid)) = 66%nat
  /\ (forall signature,
         topics_match channel_topics
           (event_topics signature (ChannelUniqueID.channel_id cuid)) = true)
  /\ (forall signature other_id,
         0 <= other_id <= UINT256_MAX ->
         other_id <> ChannelUniqueID.channel_id cuid ->
         topics_match channel_topics (event_topics signature other_id) = false).
Proof.
  intros Hinit channel_topics subscription.
  destruct (init_returns decode_event decode_hex token_network_abi str_ChannelUniqueID
              tn cuid e0 e1 pc Hinit)
    as (Hrange & events & w1 & decoded & p1 & p2 & Hquery & Hlast & Hlists & Hnode & _).
  assert (Hfields : channel_unique_id pc = cuid /\ token_network pc = tn).
  { rewrite (init_resolved decode_event decode_hex token_network_abi str_ChannelUniqueID
               tn cuid e0 events w1 decoded p1 p2 Hrange Hquery Hlast Hlists) in Hinit.
    destruct (negb _); [discriminate Hinit |].
    destruct (bool_decide _); inversion Hinit; now split. }
  destruct Hfields as [Hcuid Htn].
  split; [| split; [| split]].
  - destruct (TokenNetwork.new_filter tn (TokenNetwork.address tn) channel_topics
                from_block to_block (world e)) as [r w'] eqn:Hnew.
    exists r, w'. split; [reflexivity |].
    unfold all_events_filter, channel_identifier, this. unfold bind at 1 2.
    cbv beta iota. unfold ret at 1. cbv beta iota. unfold bind at 1. cbv beta iota.
    cbn [self env]. rewrite Hcuid, Htn.
    rewrite (format_064x_uint256 _ Hrange).
    change ("0x" +:+ hex_fixed 64 (Z.to_N (ChannelUniqueID.channel_id cuid)))
      with (uint256_topic (ChannelUniqueID.channel_id cuid)).
    fold channel_topics. unfold bind, on_env, invoke. cbn [self env].
    rewrite Hnew. destruct r; reflexivity.
  - apply uint256_topic_length.
  - intros signature. subst channel_topics. unfold event_topics. cbn [topics_match].
    rewrite bool_decide_eq_true_2; reflexivity.
  - intros signature other_id Hother Hne. subst channel_topics.
    unfold event_topics. cbn [topics_match].
    rewrite bool_decide_eq_false_2; [reflexivity |].
    intros Heq. apply Hne. symmetry.
    now apply uint256_topic_inj.
Qed.

(** *** The object is never written to *)

Lemma keeps_self_ret {A} (a : A) : keeps_self (ret a : M HeapT A).
Proof. intros h. reflexivity. Qed.

Lemma keeps_self_raise {A} (err : exn) : keeps_self (raise err : M HeapT A).
Proof. intros h. reflexivity. Qed.

Lemma keeps_self_lift {A} (r : result A) : keeps_self (lift r : M HeapT A).
Proof. intros h. reflexivity. Qed.

Lemma keeps_self_this : keeps_self (this : M HeapT PaymentChannel).
Proof. intros h. reflexivity. Qed.

Lemma keeps_self_on_env {A} (m : M (Env W) A) : keeps_self (on_env m : M HeapT A).
Proof. intros h. unfold on_env. now destruct (m (env h)). Qed.

Lemma keeps_self_bind {A B} (m : M HeapT A) (k : A -> M HeapT B) :
  keeps_self m -> (forall a, keeps_self (k a)) -> keeps_self (bind m k).
Proof.
  intros Hm Hk h. unfold bind. specialize (Hm h).
  destruct (m h) as [[a | err] h1]; cbn [snd] in *.
  - now rewrite Hk.
  - exact Hm.
Qed.

Lemma keeps_self_if {A} (b : bool) (m1 m2 : M HeapT A) :
  keeps_self m1 -> keeps_self m2 -> keeps_self (if b then m1 else m2).
Proof. now destruct b. Qed.

Lemma keeps_self_forget {A} (m : M HeapT A) : keeps_self m -> keeps_self (forget m).
Proof.
  intros Hm h. unfold forget. specialize (Hm h). now destruct (m h).
Qed.

Lemma keeps_self_with_rlock {A} (key : Address) (body : M HeapT A) :
  keeps_self body -> keeps_self (with_rlock key body).
Proof.
  intros Hbody h. unfold with_rlock, finally.
  specialize (Hbody (heap_env (rlock_acquire key) h)).
  now destruct (body (heap_env (rlock_acquire key) h)).
Qed.

Lemma keeps_self_lock_or_raise {A} (body : M HeapT A) :
  keeps_self body -> keeps_self (lock_or_raise body).
Proof.
  intros Hbody. unfold lock_or_raise.
  apply keeps_self_bind; [apply keeps_self_this |].
  intros pc. now apply keeps_self_with_rlock.
Qed.

#[local] Hint Resolve keeps_self_ret keeps_self_raise keeps_self_lift keeps_self_this
  keeps_self_on_env keeps_self_bind keeps_self_if keeps_self_forget
  keeps_self_with_rlock keeps_self_lock_or_raise : frame.

Lemma keeps_self_settle_timeout :
  keeps_self (settle_timeout decode_event token_network_abi : M HeapT pyval).
Proof. unfold settle_timeout, channel_identifier. auto 12 with frame. Qed.

Lemma keeps_self_close_block_number :
  keeps_self (close_block_number decode_event token_network_abi : M HeapT (option Z)).
Proof.
  unfold close_block_number, channel_identifier.
  apply keeps_self_bind; [auto with frame |]; intros pc.
  apply keeps_self_bind; [auto with frame |]; intros channel_id.
  apply keeps_self_bind; [auto with frame |]; intros events.
  destruct events; auto 8 with frame.
Qed.

Lemma keeps_self_all_events_filter (from_block to_block : pyval) :
  keeps_self (all_events_filter from_block to_block : M HeapT Filter).
Proof. unfold all_events_filter, channel_identifier. auto 8 with frame. Qed.

Lemma keeps_self_perform (op : Operation) :
  keeps_self (perform decode_event token_network_abi op : M HeapT unit).
Proof.
  induction op; cbn [perform];
    auto using keeps_self_settle_timeout, keeps_self_close_block_number,
               keeps_self_all_events_filter with frame;
    try (apply keeps_self_forget);
    unfold channel_identifier, token_address, detail, opened, closed, settled,
           closing_address, can_transfer, set_total_deposit, close, update_transfer,
           unlock, settle;
    auto with frame.
Qed.

Lemma perform_all_keeps_self (ops : list Operation) (h : HeapT) :
  self (perform_all decode_event token_network_abi ops h) = self h.
Proof.
  revert h. induction ops as [| op ops IH]; intros h; [reflexivity |].
  unfold perform_all in *. cbn [fold_left]. rewrite IH.
  apply keeps_self_perform.
Qed.

(** C9, as the code has it: after a construction that returned,
    [participant1] is the node's address; [participant1] and [participant2]
    differ whenever the two participants that the Opened event lists differ
    (the constructor does not compare them); and after any sequence of
    queries and operations, under [lock_or_raise] or not, returning or
    raising, the object is the one that the constructor returned. *)
Theorem C9_identity_is_fixed_at_construction
    (tn : TN) (cuid : ChannelUniqueID.t) (e e' : Env W) (pc : PaymentChannel) :
  __init__ decode_event decode_hex token_network_abi str_ChannelUniqueID tn cuid e
  = (Return pc, e') ->
  participant1 pc = TokenNetwork.node_address tn
  /\ (forall events w' decoded p1 p2,
         query_returns tn (ChannelUniqueID.channel_id cuid) OPENED (world e) events w' ->
         last_decodes_to decode_event token_network_abi events decoded ->
         lists_participants decode_hex decoded p1 p2 ->
         p1 <> p2 ->
         participant1 pc <> participant2 pc)
  /\ (forall (ops : list Operation) (env0 : Env W),
         let h := perform_all decode_event token_network_abi ops (mkHeap pc env0) in
         self h = pc
         /\ channel_unique_id (self h) = cuid
         /\ participant1 (self h) = participant1 pc
         /\ participant2 (self h) = participant2 pc).
Proof.
  intros Hinit.
  destruct (init_returns decode_event decode_hex token_network_abi str_ChannelUniqueID
              tn cuid e e' pc Hinit)
    as (Hrange & events & w1 & decoded & p1 & p2 & Hquery & Hlast & Hlists & Hnode & _).
  pose proof Hinit as Hshape.
  rewrite (init_resolved decode_event decode_hex token_network_abi str_ChannelUniqueID
             tn cuid e events w1 decoded p1 p2 Hrange Hquery Hlast Hlists) in Hshape.
  assert (Hfields : channel_unique_id pc = cuid
                    /\ participant1 pc = TokenNetwork.node_address tn).
  { destruct (negb _); [discriminate Hshape |].
    destruct (bool_decide (TokenNetwork.node_address tn = p2)) eqn:H2;
      inversion Hshape; subst pc; cbn; split; try reflexivity.
    - apply bool_decide_eq_true in H2. congruence.
    - apply bool_decide_eq_false in H2. destruct Hnode; congruence. }
  destruct Hfields as [Hcuid Hp1].
  split; [exact Hp1 |]. split.
  - intros events' w'' decoded' q1 q2 Hquery' Hlast' Hlists' Hdiff.
    rewrite (init_resolved decode_event decode_hex token_network_abi str_ChannelUniqueID
               tn cuid e events' w'' decoded' q1 q2 Hrange Hquery' Hlast' Hlists')
      in Hinit.
    destruct (negb _); [discriminate Hinit |].
    destruct (bool_decide (TokenNetwork.node_address tn = q2));
      inversion Hinit; subst pc; cbn; congruence.
  - intros ops env0 h. subst h.
    rewrite (perform_all_keeps_self ops (mkHeap pc env0)). cbn [self].
    repeat split. exact Hcuid.
Qed.

(** *** The lock of the partner *)


Ltac destruct_submission r w :=
  match goal with
  | |- context [TokenNetwork.set_total_deposit ?t ?a ?b ?c ?x] =>
      destruct (TokenNetwork.set_total_deposit t a b c x) as [r w]
  | |- context [TokenNetwork.close ?t ?a ?b ?c ?d ?e ?f ?x] =>
      destruct (TokenNetwork.close t a b c d e f x) as [r w]
  | |- context [TokenNetwork.update_transfer ?t ?a ?b ?c ?d ?e ?f ?g ?x] =>
      destruct (TokenNetwork.update_transfer t a b c d e f g x) as [r w]
  | |- context [TokenNetwork.unlock ?t ?a ?b ?c ?x] =>
      destruct (TokenNetwork.unlock t a b c x) as [r w]
  | |- context [TokenNetwork.settle ?t ?a ?b ?c ?d ?e ?f ?g ?i ?x] =>
      destruct (TokenNetwork.settle t a b c d e f g i x) as [r w]
  end.

(** A mutating operation is one call of the token network's method of the
    same name, with [participant2] as the partner. *)
Lemma mutating_is_one_submission (op : Operation) (h : HeapT) :
  is_mutating op = true ->
  exists c r w',
    perform decode_event token_network_abi op h
    = (r, mkHeap (self h) (after_call c (env h) w'))
    /\ is_submission c = true
    /\ partner_of c = Some (participant2 (self h)).
Proof.
  intros Hmut.
  destruct op; try discriminate Hmut; cbn [perform];
    unfold set_total_deposit, close, update_transfer, unlock, settle,
           bind, this, on_env, invoke;
    destruct_submission r w';
    eexists _, r, w'; (split; [reflexivity | split; reflexivity]).
Qed.


End Operations.

(** ** The theorems on the sample ledger *)

Lemma C1_local_node_becomes_participant1_witness :
  TokenNetwork.node_address (Sample.token_network [xbb]) = [xbb]
  /\ lists_participants Sample.decode_hex
       (Sample.opened_event "0xaa" "0xbb" 500 900) [xaa] [xbb]
  /\ exists pc,
       Sample.init [xbb] Sample.channel7 Sample.ledger_open
       = (Return pc,
          after_call
            (call_getLogs (opened_filter (Sample.token_network [xbb]) Sample.channel7))
            (Sample.start Sample.ledger_open) Sample.ledger_open)
       /\ channel_unique_id pc = Sample.channel7
       /\ participant1 pc = [xbb]
       /\ ([xbb] = [xaa] -> participant2 pc = [xbb])
       /\ ([xbb] = [xbb] -> participant2 pc = [xaa]).
Proof.
  split; [reflexivity |].
  split; [exists (PyStr "0xaa"), (PyStr "0xbb"); repeat split |].
  apply (C1_local_node_becomes_participant1
           Sample.decode_event Sample.decode_hex tt Sample.str_ChannelUniqueID
           (Sample.token_network [xbb]) Sample.channel7
           (Sample.start Sample.ledger_open) Sample.ledger_open Sample.ledger_open
           (Sample.opened_event "0xaa" "0xbb" 500 900) [xaa] [xbb]).
  - split; discriminate.
  - reflexivity.
  - eexists. split; reflexivity.
  - exists (PyStr "0xaa"), (PyStr "0xbb"). repeat split.
  - right. reflexivity.
Defined.

Lemma C6_channel_id_range_is_checked_first_witness :
  (Sample.init [xbb] (ChannelUniqueID.mk [x0f] (-1)) Sample.ledger_open
   = (Raise (InvalidChannelID "ChannelUniqueID"), Sample.start Sample.ledger_open))
  /\ (Sample.init [xbb] (ChannelUniqueID.mk [x0f] (UINT256_MAX + 1)) Sample.ledger_open
      = (Raise (InvalidChannelID "ChannelUniqueID"), Sample.start Sample.ledger_open))
  /\ exists r,
       Sample.init [xbb] Sample.channel7 Sample.ledger_open
       = (r, mkEnv Sample.ledger_open [call_getLogs (mkFilterArgs [x01] 7 OPENED)] ∅).
Proof.
  split; [| split].
  - apply (C6_channel_id_range_is_checked_first
             Sample.decode_event Sample.decode_hex tt Sample.str_ChannelUniqueID
             (Sample.token_network [xbb]) (ChannelUniqueID.mk [x0f] (-1))
             (Sample.start Sample.ledger_open)).
    left. reflexivity.
  - apply (C6_channel_id_range_is_checked_first
             Sample.decode_event Sample.decode_hex tt Sample.str_ChannelUniqueID
             (Sample.token_network [xbb]) (ChannelUniqueID.mk [x0f] (UINT256_MAX + 1))
             (Sample.start Sample.ledger_open)).
    right. reflexivity.
  - apply (C6_channel_id_range_is_checked_first
             Sample.decode_event Sample.decode_hex tt Sample.str_ChannelUniqueID
             (Sample.token_network [xbb]) Sample.channel7
             (Sample.start Sample.ledger_open)).
    split; discriminate.
Defined.

Lemma C7_no_opened_event_no_channel_witness :
  query_returns (Sample.token_network [xbb]) 8 OPENED Sample.ledger_open
    [] Sample.ledger_open
  /\ Sample.init [xbb] (ChannelUniqueID.mk [x0f] 8) Sample.ledger_open
     = (Raise ChannelNotFound,
        mkEnv Sample.ledger_open [call_getLogs (mkFilterArgs [x01] 8 OPENED)] ∅).
Proof.
  split; [reflexivity |].
  apply (C7_no_opened_event_no_channel
           Sample.decode_event Sample.decode_hex tt Sample.str_ChannelUniqueID
           (Sample.token_network [xbb]) (ChannelUniqueID.mk [x0f] 8)
           (Sample.start Sample.ledger_open) Sample.ledger_open).
  - split; discriminate.
  - reflexivity.
Defined.

Lemma C8_stranger_is_rejected_witness :
  lists_participants Sample.decode_hex
    (Sample.opened_event "0xaa" "0xbb" 500 900) [xaa] [xbb]
  /\ Sample.init [xcc] Sample.channel7 Sample.ledger_open
     = (Raise NotAParticipant,
        mkEnv Sample.ledger_open [call_getLogs (mkFilterArgs [x01] 7 OPENED)] ∅).
Proof.
  split; [exists (PyStr "0xaa"), (PyStr "0xbb"); repeat split |].
  apply (C8_stranger_is_rejected
           Sample.decode_event Sample.decode_hex tt Sample.str_ChannelUniqueID
           (Sample.token_network [xcc]) Sample.channel7
           (Sample.start Sample.ledger_open) Sample.ledger_open Sample.ledger_open
           (Sample.opened_event "0xaa" "0xbb" 500 900) [xaa] [xbb]).
  - split; discriminate.
  - reflexivity.
  - eexists. split; reflexivity.
  - exists (PyStr "0xaa"), (PyStr "0xbb"). repeat split.
  - discriminate.
  - discriminate.
Defined.

Lemma C10_constructor_errors_are_value_errors_witness :
  (exists err,
      fst (Sample.init [xcc] (ChannelUniqueID.mk [x0f] (-1)) Sample.ledger_open)
      = Raise err
      /\ err = InvalidChannelID "ChannelUniqueID" /\ class_of err = ValueError_class)
  /\ (exists err,
      fst (Sample.init [xcc] (ChannelUniqueID.mk [x0f] 8) Sample.ledger_open) = Raise err
      /\ err = ChannelNotFound /\ class_of err = ValueError_class)
  /\ (exists err,
      fst (Sample.init [xcc] Sample.channel7 Sample.ledger_open) = Raise err
      /\ err = NotAParticipant /\ class_of err = ValueError_class).
Proof.
  split; [| split].
  - apply (C10_constructor_errors_are_value_errors
             Sample.decode_event Sample.decode_hex tt Sample.str_ChannelUniqueID
             (Sample.token_network [xcc]) (ChannelUniqueID.mk [x0f] (-1))
             (Sample.start Sample.ledger_open)).
    left. reflexivity.
  - apply (C10_constructor_errors_are_value_errors
             Sample.decode_event Sample.decode_hex tt Sample.str_ChannelUniqueID
             (Sample.token_network [xcc]) (ChannelUniqueID.mk [x0f] 8)
             (Sample.start Sample.ledger_open)) with (w' := Sample.ledger_open).
    + split; discriminate.
    + reflexivity.
  - apply (C10_constructor_errors_are_value_errors
             Sample.decode_event Sample.decode_hex tt Sample.str_ChannelUniqueID
             (Sample.token_network [xcc]) Sample.channel7
             (Sample.start Sample.ledger_open))
      with (events := Sample.ledger_open) (w' := Sample.ledger_open)
           (decoded := Sample.opened_event "0xaa" "0xbb" 500 900)
           (p1 := [xaa]) (p2 := [xbb]).
    + split; discriminate.
    + reflexivity.
    + eexists. split; reflexivity.
    + exists (PyStr "0xaa"), (PyStr "0xbb"). repeat split.
    + discriminate.
    + discriminate.
Defined.

Lemma C4_settle_timeout_of_last_opened_event_witness :
  settle_timeout Sample.decode_event tt (Sample.heap Sample.ledger_closed)
  = (Return (PyInt 500),
     mkHeap Sample.channel7_of_bb
       (mkEnv Sample.ledger_closed [call_getLogs (mkFilterArgs [x01] 7 OPENED)] ∅))
  /\ settle_timeout Sample.decode_event tt (Sample.heap [])
     = (Raise (AssertionError (Some "No matching ChannelOpen event found."%string)),
        mkHeap Sample.channel7_of_bb
          (mkEnv [] [call_getLogs (mkFilterArgs [x01] 7 OPENED)] ∅)).
Proof.
  split.
  - apply (proj1 (C4_settle_timeout_of_last_opened_event
                    Sample.decode_event tt (Sample.heap Sample.ledger_closed)))
      with (events := Sample.ledger_open)
           (decoded := Sample.opened_event "0xaa" "0xbb" 500 900).
    + reflexivity.
    + eexists. split; reflexivity.
    + reflexivity.
  - apply (proj2 (C4_settle_timeout_of_last_opened_event
                    Sample.decode_event tt (Sample.heap []))).
    reflexivity.
Defined.

Lemma C3_close_block_number_witness :
  close_block_number Sample.decode_event tt (Sample.heap Sample.ledger_open)
  = (Return None,
     mkHeap Sample.channel7_of_bb
       (mkEnv Sample.ledger_open [call_getLogs (mkFilterArgs [x01] 7 CLOSED)] ∅))
  /\ close_block_number Sample.decode_event tt (Sample.heap Sample.ledger_closed)
     = (Return (Some 1000),
        mkHeap Sample.channel7_of_bb
          (mkEnv Sample.ledger_closed [call_getLogs (mkFilterArgs [x01] 7 CLOSED)] ∅))
  /\ close_block_number Sample.decode_event tt (Sample.heap Sample.ledger_closed_twice)
     = (Raise (AssertionError None),
        mkHeap Sample.channel7_of_bb
          (mkEnv Sample.ledger_closed_twice
             [call_getLogs (mkFilterArgs [x01] 7 CLOSED)] ∅)).
Proof.
  split; [| split].
  - apply (proj1 (C3_close_block_number
                    Sample.decode_event tt (Sample.heap Sample.ledger_open))).
    reflexivity.
  - apply (proj1 (proj2 (C3_close_block_number
                           Sample.decode_event tt (Sample.heap Sample.ledger_closed))))
      with (raw := Sample.mkLogEntry CLOSED 7 (Sample.closed_event 1000))
           (w' := Sample.ledger_closed) (decoded := Sample.closed_event 1000).
    + reflexivity.
    + reflexivity.
  - apply (proj2 (proj2 (C3_close_block_number
                           Sample.decode_event tt
                           (Sample.heap Sample.ledger_closed_twice))))
      with (events := [Sample.mkLogEntry CLOSED 7 (Sample.closed_event 1000);
                       Sample.mkLogEntry CLOSED 7 (Sample.closed_event 1001)]).
    + reflexivity.
    + cbn. lia.
Defined.

Lemma C5_all_events_filter_selects_the_channel_witness :
  all_events_filter PyNone PyNone (Sample.heap Sample.ledger_closed)
  = (Return tt,
     mkHeap Sample.channel7_of_bb
       (mkEnv Sample.ledger_closed
          [call_new_filter [x01]
             [None;
              Some "0x0000000000000000000000000000000000000000000000000000000000000007"%string]
             PyNone PyNone] ∅))
  /\ topics_match [None; Some (uint256_topic 7)] (event_topics "ChannelOpened" 7) = true
  /\ topics_match [None; Some (uint256_topic 7)] (event_topics "ChannelClosed" 7) = true
  /\ topics_match [None; Some (uint256_topic 7)] (event_topics "ChannelSettled" 7) = true
  /\ topics_match [None; Some (uint256_topic 7)] (event_topics "ChannelOpened" 8) = false.
Proof.
  destruct (C5_all_events_filter_selects_the_channel
              Sample.decode_event Sample.decode_hex tt Sample.str_ChannelUniqueID
              (Sample.token_network [xbb]) Sample.channel7
              (Sample.start Sample.ledger_open)
              (mkEnv Sample.ledger_open [call_getLogs (mkFilterArgs [x01] 7 OPENED)] ∅)
              (Sample.start Sample.ledger_closed)
              Sample.channel7_of_bb PyNone PyNone eq_refl)
    as ((r & w' & Hnew & Hfilter) & _ & Hsame & Hother).
  split; [| split; [| split; [| split]]].
  - cbn in Hnew. injection Hnew as <- <-. exact Hfilter.
  - apply Hsame.
  - apply Hsame.
  - apply Hsame.
  - apply Hother; [split; discriminate | discriminate].
Defined.

Lemma C9_identity_is_fixed_at_construction_witness :
  Sample.init [xbb] Sample.channel7 Sample.ledger_open
  = (Return Sample.channel7_of_bb,
     mkEnv Sample.ledger_open [call_getLogs (mkFilterArgs [x01] 7 OPENED)] ∅)
  /\ participant1 Sample.channel7_of_bb = [xbb]
  /\ participant1 Sample.channel7_of_bb <> participant2 Sample.channel7_of_bb
  /\ self (perform_all Sample.decode_event tt
             [op_close 1 [] [] []; op_settle_timeout; op_lock_or_raise (op_unlock [])]
             (Sample.heap Sample.ledger_open))
     = Sample.channel7_of_bb.
Proof.
  split; [reflexivity |].
  destruct (C9_identity_is_fixed_at_construction
              Sample.decode_event Sample.decode_hex tt Sample.str_ChannelUniqueID
              (Sample.token_network [xbb]) Sample.channel7
              (Sample.start Sample.ledger_open)
              (mkEnv Sample.ledger_open [call_getLogs (mkFilterArgs [x01] 7 OPENED)] ∅)
              Sample.channel7_of_bb eq_refl)
    as (Hfirst & Hdiffer & Hfixed).
  split; [exact Hfirst |]. split.
  - apply (Hdiffer Sample.ledger_open Sample.ledger_open
             (Sample.opened_event "0xaa" "0xbb" 500 900) [xaa] [xbb]).
    + reflexivity.
    + eexists. split; reflexivity.
    + exists (PyStr "0xaa"), (PyStr "0xbb"). repeat split.
    + discriminate.
  - apply (Hfixed [op_close 1 [] [] []; op_settle_timeout; op_lock_or_raise (op_unlock [])]
             (Sample.start Sample.ledger_open)).
Defined.

(** The Opened event of the sample ledger [ledger_self] names the node
    twice: the constructor returns an object whose two participants are
    equal. *)
Lemma C9_counterexample_equal_participants :
  exists pc e',
    Sample.init [xbb] Sample.channel7 Sample.ledger_self = (Return pc, e')
    /\ participant1 pc = [xbb]
    /\ ~ participant1 pc <> participant2 pc.
Proof.
  exists (mkPaymentChannel Sample.channel7 0%nat [xbb] [xbb] (Sample.token_network [xbb])),
         (mkEnv Sample.ledger_self [call_getLogs (mkFilterArgs [x01] 7 OPENED)] ∅).
  split; [reflexivity |]. split; [reflexivity |].
  intros Hdiffer. now apply Hdiffer.
Qed.



(** ** More on construction *)

Section Construction_more.
Context {W RawLog ChannelDetails Filter ABI : Type}.
Variable decode_event : ABI -> RawLog -> result DecodedEvent.
Variable decode_hex : pyval -> result (list byte).
Variable token_network_abi : ABI.
Variable str_ChannelUniqueID : ChannelUniqueID.t -> string.

Let TN := TokenNetwork.t W RawLog ChannelDetails Filter.
Let init := @__init__ W RawLog ChannelDetails Filter ABI
              decode_event decode_hex token_network_abi str_ChannelUniqueID.
Let init_resolved' :=
  @init_resolved W RawLog ChannelDetails Filter ABI
    decode_event decode_hex token_network_abi str_ChannelUniqueID.

Lemma range_cases (z : Z) :
  (z < 0 \/ UINT256_MAX < z) \/ 0 <= z <= UINT256_MAX.
Proof.
  destruct (Z_lt_ge_dec z 0) as [Hlo | Hlo]; [left; now left |].
  destruct (Z_lt_ge_dec UINT256_MAX z) as [Hhi | Hhi]; [left; now right |].
  right. split; now apply Z.ge_le.
Qed.

(** Once the query has returned entries, the constructor works on the last
    of them and on nothing else. *)
Lemma init_reads_last (tn : TN) (cuid : ChannelUniqueID.t) (e : Env W)
    (events : list RawLog) (w' : W) (raw : RawLog) :
  0 <= ChannelUniqueID.channel_id cuid <= UINT256_MAX ->
  query_returns tn (ChannelUniqueID.channel_id cuid) OPENED (world e) events w' ->
  last events = Some raw ->
  init tn cuid e
  = (event <- lift (decode_event token_network_abi raw) ;;
     hex1 <- lift (getitem (args event) "participant1") ;;
     p1 <- lift (decode_hex hex1) ;;
     hex2 <- lift (getitem (args event) "participant2") ;;
     p2 <- lift (decode_hex hex2) ;;
     if negb (bool_decide (TokenNetwork.node_address tn = p1)
              || bool_decide (TokenNetwork.node_address tn = p2))
     then raise NotAParticipant
     else ret (if bool_decide (TokenNetwork.node_address tn = p2)
               then mkPaymentChannel cuid 0%nat p2 p1 tn
               else mkPaymentChannel cuid 0%nat p1 p2 tn))
      (after_call (call_getLogs (opened_filter tn cuid)) e w').
Proof.
  intros Hrange Hquery Hlast. unfold init, __init__.
  rewrite (range_test_false _ Hrange). unfold bind at 1. unfold invoke.
  unfold query_returns in Hquery. rewrite Hquery.
  assert (Hlen : negb (0 <? length events)%nat = false).
  { destruct events; [discriminate Hlast | reflexivity]. }
  rewrite Hlen. unfold getitem_last. rewrite Hlast.
  unfold bind, lift, raise, ret, after_call, opened_filter.
  destruct (decode_event token_network_abi raw) as [ev |]; [| reflexivity].
  destruct (getitem (args ev) "participant1") as [h1 |]; [| reflexivity].
  destruct (decode_hex h1) as [q1 |]; [| reflexivity].
  destruct (getitem (args ev) "participant2") as [h2 |]; [| reflexivity].
  destruct (decode_hex h2) as [q2 |]; [| reflexivity].
  destruct (bool_decide (TokenNetwork.node_address tn = q1)),
           (bool_decide (TokenNetwork.node_address tn = q2)); reflexivity.
Qed.

(** When the channel id has been opened more than once, the constructor
    resolves the channel from the last Opened entry that the query returns:
    the entries before it change nothing to the object it returns or to the
    error it raises. *)
Theorem init_resolves_from_last_entry
    (tn : TN) (cuid : ChannelUniqueID.t) (e e2 : Env W)
    (older : list RawLog) (raw : RawLog) (w' w2 : W) :
  query_returns tn (ChannelUniqueID.channel_id cuid) OPENED (world e)
    (older ++ [raw]) w' ->
  query_returns tn (ChannelUniqueID.channel_id cuid) OPENED (world e2) [raw] w2 ->
  fst (__init__ decode_event decode_hex token_network_abi str_ChannelUniqueID tn cuid e)
  = fst (__init__ decode_event decode_hex token_network_abi str_ChannelUniqueID
           tn cuid e2).
Proof.
  intros Hquery Hquery2. fold init.
  destruct (range_cases (ChannelUniqueID.channel_id cuid)) as [Hout | Hrange].
  - unfold init. now rewrite !init_out_of_range by exact Hout.
  - rewrite (init_reads_last tn cuid e (older ++ [raw]) w' raw Hrange Hquery
               ltac:(apply last_snoc)).
    rewrite (init_reads_last tn cuid e2 [raw] w2 raw Hrange Hquery2 eq_refl).
    unfold bind, lift, raise, ret.
    destruct (decode_event token_network_abi raw) as [ev |]; [| reflexivity].
    destruct (getitem (args ev) "participant1") as [h1 |]; [| reflexivity].
    destruct (decode_hex h1) as [q1 |]; [| reflexivity].
    destruct (getitem (args ev) "participant2") as [h2 |]; [| reflexivity].
    destruct (decode_hex h2) as [q2 |]; [| reflexivity].
    destruct (negb _); reflexivity.
Qed.

(** The order in which the Opened event lists the two participants has no
    influence on the constructor: from an event that lists them as
    [(p1, p2)] and from one that lists them as [(p2, p1)] it returns the same
    object, or raises the same error. *)
Theorem init_ignores_listing_order
    (tn : TN) (cuid : ChannelUniqueID.t) (e e2 : Env W)
    (events events2 : list RawLog) (w' w2 : W) (decoded decoded2 : DecodedEvent)
    (p1 p2 : Address) :
  query_returns tn (ChannelUniqueID.channel_id cuid) OPENED (world e) events w' ->
  last_decodes_to decode_event token_network_abi events decoded ->
  lists_participants decode_hex decoded p1 p2 ->
  query_returns tn (ChannelUniqueID.channel_id cuid) OPENED (world e2) events2 w2 ->
  last_decodes_to decode_event token_network_abi events2 decoded2 ->
  lists_participants decode_hex decoded2 p2 p1 ->
  fst (__init__ decode_event decode_hex token_network_abi str_ChannelUniqueID tn cuid e)
  = fst (__init__ decode_event decode_hex token_network_abi str_ChannelUniqueID
           tn cuid e2).
Proof.
  intros Hquery Hlast Hlists Hquery2 Hlast2 Hlists2. fold init.
  destruct (range_cases (ChannelUniqueID.channel_id cuid)) as [Hout | Hrange].
  - unfold init. now rewrite !init_out_of_range by exact Hout.
  - unfold init.
    rewrite (init_resolved' tn cuid e events w' decoded p1 p2
               Hrange Hquery Hlast Hlists).
    rewrite (init_resolved' tn cuid e2 events2 w2 decoded2 p2 p1
               Hrange Hquery2 Hlast2 Hlists2).
    cbn [fst].
    destruct (decide (TokenNetwork.node_address tn = p1)) as [H1 | H1];
      destruct (decide (TokenNetwork.node_address tn = p2)) as [H2 | H2];
      rewrite ?(bool_decide_eq_true_2 _ H1), ?(bool_decide_eq_true_2 _ H2),
              ?(bool_decide_eq_false_2 _ H1), ?(bool_decide_eq_false_2 _ H2);
      cbn [orb negb]; try reflexivity.
    congruence.
Qed.

(** The two participants of a channel resolve it to mirror images: what is
    [participant1] for one node is [participant2] for the other. *)
Theorem init_views_mirror
    (tnA tnB : TN) (cuid : ChannelUniqueID.t) (eA eA' eB eB' : Env W)
    (pcA pcB : PaymentChannel)
    (eventsA eventsB : list RawLog) (wA wB : W) (decodedA decodedB : DecodedEvent)
    (p1 p2 : Address) :
  __init__ decode_event decode_hex token_network_abi str_ChannelUniqueID tnA cuid eA
  = (Return pcA, eA') ->
  __init__ decode_event decode_hex token_network_abi str_ChannelUniqueID tnB cuid eB
  = (Return pcB, eB') ->
  query_returns tnA (ChannelUniqueID.channel_id cuid) OPENED (world eA) eventsA wA ->
  last_decodes_to decode_event token_network_abi eventsA decodedA ->
  lists_participants decode_hex decodedA p1 p2 ->
  query_returns tnB (ChannelUniqueID.channel_id cuid) OPENED (world eB) eventsB wB ->
  last_decodes_to decode_event token_network_abi eventsB decodedB ->
  lists_participants decode_hex decodedB p1 p2 ->
  TokenNetwork.node_address tnA <> TokenNetwork.node_address tnB ->
  participant1 pcA = participant2 pcB
  /\ participant2 pcA = participant1 pcB
  /\ participant1 pcA = TokenNetwork.node_address tnA
  /\ participant1 pcB = TokenNetwork.node_address tnB.
Proof.
  intros HinitA HinitB HqueryA HlastA HlistsA HqueryB HlastB HlistsB Hnodes.
  destruct (init_returns decode_event decode_hex token_network_abi str_ChannelUniqueID
              tnA cuid eA eA' pcA HinitA) as (Hrange & _).
  fold init in HinitA, HinitB. unfold init in HinitA, HinitB.
  rewrite (init_resolved' tnA cuid eA eventsA wA decodedA p1 p2
             Hrange HqueryA HlastA HlistsA) in HinitA.
  rewrite (init_resolved' tnB cuid eB eventsB wB decodedB p1 p2
             Hrange HqueryB HlastB HlistsB) in HinitB.
  destruct (decide (TokenNetwork.node_address tnA = p1)) as [A1 | A1];
    destruct (decide (TokenNetwork.node_address tnA = p2)) as [A2 | A2];
    destruct (decide (TokenNetwork.node_address tnB = p1)) as [B1 | B1];
    destruct (decide (TokenNetwork.node_address tnB = p2)) as [B2 | B2];
    rewrite ?(bool_decide_eq_true_2 _ A1), ?(bool_decide_eq_true_2 _ A2),
            ?(bool_decide_eq_false_2 _ A1), ?(bool_decide_eq_false_2 _ A2)
      in HinitA;
    rewrite ?(bool_decide_eq_true_2 _ B1), ?(bool_decide_eq_true_2 _ B2),
            ?(bool_decide_eq_false_2 _ B1), ?(bool_decide_eq_false_2 _ B2)
      in HinitB;
    cbn [orb negb] in HinitA, HinitB;
    try discriminate HinitA; try discriminate HinitB;
    try (exfalso; congruence);
    inversion HinitA; inversion HinitB; subst pcA pcB; cbn;
    repeat split; congruence.
Qed.

(** The constructor handles none of the failures of its collaborators: it
    raises, unchanged, the error of the log query, of the event decoder or
    of the address decoder, and a [KeyError] when the decoded event lacks
    one of the two participants; in each case after the one log query. *)
Theorem init_surfaces_first_failure
    (tn : TN) (cuid : ChannelUniqueID.t) (e : Env W) :
  0 <= ChannelUniqueID.channel_id cuid <= UINT256_MAX ->
  (forall err w',
      TokenNetwork.getLogs tn (opened_filter tn cuid) (world e) = (Raise err, w') ->
      __init__ decode_event decode_hex token_network_abi str_ChannelUniqueID tn cuid e
      = (Raise err, after_call (call_getLogs (opened_filter tn cuid)) e w'))
  /\ (forall events w' raw err,
      query_returns tn (ChannelUniqueID.channel_id cuid) OPENED (world e) events w' ->
      last events = Some raw ->
      decode_event token_network_abi raw = Raise err ->
      __init__ decode_event decode_hex token_network_abi str_ChannelUniqueID tn cuid e
      = (Raise err, after_call (call_getLogs (opened_filter tn cuid)) e w'))
  /\ (forall events w' decoded,
      query_returns tn (ChannelUniqueID.channel_id cuid) OPENED (world e) events w' ->
      last_decodes_to decode_event token_network_abi events decoded ->
      args decoded !! "participant1" = None ->
      __init__ decode_event decode_hex token_network_abi str_ChannelUniqueID tn cuid e
      = (Raise (KeyError "participant1"),
         after_call (call_getLogs (opened_filter tn cuid)) e w'))
  /\ (forall events w' decoded hex1 err,
      query_returns tn (ChannelUniqueID.channel_id cuid) OPENED (world e) events w' ->
      last_decodes_to decode_event token_network_abi events decoded ->
      args decoded !! "participant1" = Some hex1 ->
      decode_hex hex1 = Raise err ->
      __init__ decode_event decode_hex token_network_abi str_ChannelUniqueID tn cuid e
      = (Raise err, after_call (call_getLogs (opened_filter tn cuid)) e w'))
  /\ (forall events w' decoded hex1 p1,
      query_returns tn (ChannelUniqueID.channel_id cuid) OPENED (world e) events w' ->
      last_decodes_to decode_event token_network_abi events decoded ->
      args decoded !! "participant1" = Some hex1 ->
      decode_hex hex1 = Return p1 ->
      args decoded !! "participant2" = None ->
      __init__ decode_event decode_hex token_network_abi str_ChannelUniqueID tn cuid e
      = (Raise (KeyError "participant2"),
         after_call (call_getLogs (opened_filter tn cuid)) e w'))
  /\ (forall events w' decoded hex1 p1 hex2 err,
      query_returns tn (ChannelUniqueID.channel_id cuid) OPENED (world e) events w' ->
      last_decodes_to decode_event token_network_abi events decoded ->
      args decoded !! "participant1" = Some hex1 ->
      decode_hex hex1 = Return p1 ->
      args decoded !! "participant2" = Some hex2 ->
      decode_hex hex2 = Raise err ->
      __init__ decode_event decode_hex token_network_abi str_ChannelUniqueID tn cuid e
      = (Raise err, after_call (call_getLogs (opened_filter tn cuid)) e w')).
Proof.
  intros Hrange. fold init. split; [| split; [| split; [| split; [| split]]]].
  - intros err w' Hquery. unfold init, __init__.
    rewrite (range_test_false _ Hrange). unfold bind at 1. unfold invoke.
    unfold opened_filter in Hquery. now rewrite Hquery.
  - intros events w' raw err Hquery Hlast Hdecode.
    rewrite (init_reads_last tn cuid e events w' raw Hrange Hquery Hlast).
    unfold bind, lift. now rewrite Hdecode.
  - intros events w' decoded Hquery (raw & Hlast & Hdecode) Hk1.
    rewrite (init_reads_last tn cuid e events w' raw Hrange Hquery Hlast).
    unfold bind, lift, getitem. rewrite Hdecode; cbv beta iota. now rewrite Hk1.
  - intros events w' decoded hex1 err Hquery (raw & Hlast & Hdecode) Hk1 Hd1.
    rewrite (init_reads_last tn cuid e events w' raw Hrange Hquery Hlast).
    unfold bind, lift, getitem. rewrite Hdecode; cbv beta iota.
    rewrite Hk1; cbv beta iota. now rewrite Hd1.
  - intros events w' decoded hex1 p1 Hquery (raw & Hlast & Hdecode) Hk1 Hd1 Hk2.
    rewrite (init_reads_last tn cuid e events w' raw Hrange Hquery Hlast).
    unfold bind, lift, getitem. rewrite Hdecode; cbv beta iota.
    rewrite Hk1; cbv beta iota. rewrite Hd1; cbv beta iota. now rewrite Hk2.
  - intros events w' decoded hex1 p1 hex2 err Hquery (raw & Hlast & Hdecode)
      Hk1 Hd1 Hk2 Hd2.
    rewrite (init_reads_last tn cuid e events w' raw Hrange Hquery Hlast).
    unfold bind, lift, getitem. rewrite Hdecode; cbv beta iota.
    rewrite Hk1; cbv beta iota. rewrite Hd1; cbv beta iota.
    rewrite Hk2; cbv beta iota. now rewrite Hd2.
Qed.

(** What the constructor returned keeps the arguments it was given. *)
Lemma init_fields (tn : TN) (cuid : ChannelUniqueID.t) (e e' : Env W)
    (pc : PaymentChannel) :
  init tn cuid e = (Return pc, e') ->
  channel_unique_id pc = cuid /\ token_network pc = tn
  /\ participant1 pc = TokenNetwork.node_address tn.
Proof.
  intros Hinit.
  destruct (init_returns decode_event decode_hex token_network_abi str_ChannelUniqueID
              tn cuid e e' pc Hinit)
    as (Hrange & events & w1 & decoded & p1 & p2 & Hquery & Hlast & Hlists & Hnode & _).
  unfold init in Hinit.
  rewrite (init_resolved' tn cuid e events w1 decoded p1 p2 Hrange Hquery Hlast Hlists)
    in Hinit.
  destruct (negb _); [discriminate Hinit |].
  destruct (bool_decide (TokenNetwork.node_address tn = p2)) eqn:H2;
    inversion Hinit; subst pc; cbn; repeat split.
  - apply bool_decide_eq_true in H2. congruence.
  - apply bool_decide_eq_false in H2. destruct Hnode; congruence.
Qed.

(** On every object that the constructor returned, [channel_identifier] is
    the channel id that the constructor was given, an integer between 0 and
    [UINT256_MAX], and [token_address] is the token address it was given;
    neither makes a call. *)
Theorem constructed_identifier_is_uint256
    (tn : TN) (cuid : ChannelUniqueID.t) (e e1 e2 : Env W) (pc : PaymentChannel) :
  __init__ decode_event decode_hex token_network_abi str_ChannelUniqueID tn cuid e
  = (Return pc, e1) ->
  channel_identifier (mkHeap pc e2)
  = (Return (ChannelUniqueID.channel_id cuid), mkHeap pc e2)
  /\ token_address (mkHeap pc e2)
     = (Return (ChannelUniqueID.token_address cuid), mkHeap pc e2)
  /\ 0 <= ChannelUniqueID.channel_id cuid <= UINT256_MAX.
Proof.
  intros Hinit.
  destruct (init_fields tn cuid e e1 pc Hinit) as (Hcuid & _ & _).
  destruct (init_returns decode_event decode_hex token_network_abi str_ChannelUniqueID
              tn cuid e e1 pc Hinit) as (Hrange & _).
  unfold channel_identifier, token_address, bind, this, ret. cbn [self].
  rewrite Hcuid. repeat split; apply Hrange.
Qed.

End Construction_more.

(** ** More on the queries, the operations and the lock *)

Create HintDb calls.

Section Operations_more.
Context {W RawLog ChannelDetails Filter ABI : Type}.
Variable decode_event : ABI -> RawLog -> result DecodedEvent.
Variable decode_hex : pyval -> result (list byte).
Variable token_network_abi : ABI.
Variable str_ChannelUniqueID : ChannelUniqueID.t -> string.

Let TN := TokenNetwork.t W RawLog ChannelDetails Filter.
Let HeapT := @Heap W RawLog ChannelDetails Filter.
Let init := @__init__ W RawLog ChannelDetails Filter ABI
              decode_event decode_hex token_network_abi str_ChannelUniqueID.

(** *** Which calls a computation makes *)

Lemma emits_silent {A} (P : Call -> bool) (m : M HeapT A) :
  (forall h, snd (m h) = h) -> emits P m.
Proof.
  intros Hm h. rewrite Hm. split; [reflexivity |].
  exists []. split; [now rewrite app_nil_r | reflexivity].
Qed.

Lemma emits_ret {A} (P : Call -> bool) (a : A) : emits P (ret a : M HeapT A).
Proof. now apply emits_silent. Qed.

Lemma emits_raise {A} (P : Call -> bool) (err : exn) : emits P (raise err : M HeapT A).
Proof. now apply emits_silent. Qed.

Lemma emits_lift {A} (P : Call -> bool) (r : result A) : emits P (lift r : M HeapT A).
Proof. now apply emits_silent. Qed.

Lemma emits_this (P : Call -> bool) : emits P (this : M HeapT PaymentChannel).
Proof. now apply emits_silent. Qed.

Lemma emits_invoke {A} (P : Call -> bool) (c : Call) (method : W -> result A * W) :
  P c = true -> emits P (on_env (invoke c method) : M HeapT A).
Proof.
  intros Hc h. unfold on_env, invoke.
  destruct (method (world (env h))) as [r w']. cbn.
  split; [reflexivity |]. exists [c]. split; [reflexivity |].
  cbn. now rewrite Hc.
Qed.

Lemma emits_bind {A B} (P : Call -> bool) (m : M HeapT A) (k : A -> M HeapT B) :
  emits P m -> (forall a, emits P (k a)) -> emits P (bind m k).
Proof.
  intros Hm Hk h. unfold bind.
  destruct (Hm h) as (Hreg & cs & Hcs & Hall).
  destruct (m h) as [[a | err] h1]; cbn [snd] in *.
  - destruct (Hk a h1) as (Hreg' & cs' & Hcs' & Hall').
    split; [congruence |].
    exists (cs ++ cs'). split.
    + rewrite Hcs', Hcs. now rewrite app_assoc.
    + rewrite forallb_app, Hall, Hall'. reflexivity.
  - split; [exact Hreg |]. now exists cs.
Qed.

Lemma emits_if {A} (P : Call -> bool) (b : bool) (m1 m2 : M HeapT A) :
  emits P m1 -> emits P m2 -> emits P (if b then m1 else m2).
Proof. now destruct b. Qed.

Lemma emits_forget {A} (P : Call -> bool) (m : M HeapT A) :
  emits P m -> emits P (forget m).
Proof.
  intros Hm h. unfold forget. specialize (Hm h). now destruct (m h).
Qed.

#[local] Hint Resolve emits_ret emits_raise emits_lift emits_this emits_invoke
  emits_bind emits_if emits_forget : calls.

Lemma emits_settle_timeout :
  emits is_read_call (settle_timeout decode_event token_network_abi : M HeapT pyval).
Proof. unfold settle_timeout, channel_identifier. auto 12 with calls. Qed.

Lemma emits_close_block_number :
  emits is_read_call
    (close_block_number decode_event token_network_abi : M HeapT (option Z)).
Proof.
  unfold close_block_number, channel_identifier.
  apply emits_bind; [auto with calls |]; intros pc.
  apply emits_bind; [auto with calls |]; intros channel_id.
  apply emits_bind; [auto with calls |]; intros events.
  destruct events; auto 8 with calls.
Qed.

Lemma emits_all_events_filter (from_block to_block : pyval) :
  emits is_read_call (all_events_filter from_block to_block : M HeapT Filter).
Proof. unfold all_events_filter, channel_identifier. auto 8 with calls. Qed.

Lemma emits_perform_query (op : Operation) :
  is_query op = true ->
  emits is_read_call (perform decode_event token_network_abi op : M HeapT unit).
Proof.
  intros Hquery.
  destruct op; try discriminate Hquery; cbn [perform];
    auto using emits_settle_timeout, emits_close_block_number,
               emits_all_events_filter with calls;
    apply emits_forget;
    unfold channel_identifier, token_address, detail, opened, closed, settled,
           closing_address, can_transfer;
    auto with calls.
Qed.

Lemma emits_perform_mutating (op : Operation) :
  is_mutating op = true ->
  emits (fun c => is_submission c)
    (perform decode_event token_network_abi op : M HeapT unit).
Proof.
  intros Hmut.
  destruct op; try discriminate Hmut; cbn [perform];
    unfold set_total_deposit, close, update_transfer, unlock, settle;
    auto with calls.
Qed.

Lemma emits_weaken {A} (P Q : Call -> bool) (m : M HeapT A) :
  (forall c, P c = true -> Q c = true) -> emits P m -> emits Q m.
Proof.
  intros HPQ Hm h. destruct (Hm h) as (Hreg & cs & Hcs & Hall).
  split; [exact Hreg |]. exists cs. split; [exact Hcs |].
  apply forallb_forall. intros c Hin.
  apply HPQ. now apply (proj1 (forallb_forall P cs) Hall).
Qed.

(** An operation that is not run under [lock_or_raise] makes no lock call. *)
Lemma emits_perform_unlocked (op : Operation) :
  is_query op || is_mutating op = true ->
  emits (fun c => negb (is_lock_call c))
    (perform decode_event token_network_abi op : M HeapT unit).
Proof.
  intros Hop. apply orb_true_iff in Hop. destruct Hop as [Hquery | Hmut].
  - apply emits_weaken with (P := is_read_call); [| now apply emits_perform_query].
    intros c Hc. unfold is_read_call in Hc. now apply andb_true_iff in Hc.
  - apply emits_weaken with (P := fun c => is_submission c);
      [| now apply emits_perform_mutating].
    intros c Hc. now destruct c.
Qed.

(** The queries ([channel_identifier], [token_address], [detail],
    [settle_timeout], [close_block_number], [opened], [closed], [settled],
    [closing_address], [can_transfer], [all_events_filter]) never submit to
    the ledger and never touch a lock: whether they return or raise, the
    registry of locks is as before and every call they made is a log query,
    a subscription or a state query. *)
Theorem queries_never_submit_or_lock (op : Operation) (h : HeapT) :
  is_query op = true ->
  registry (env (snd (perform decode_event token_network_abi op h))) = registry (env h)
  /\ exists cs,
       calls (env (snd (perform decode_event token_network_abi op h)))
       = calls (env h) ++ cs
       /\ forallb is_read_call cs = true.
Proof. intros Hquery. now apply emits_perform_query. Qed.

(** *** Locks are given back *)

Lemma hold_count_acquire (key key' : Address) (e : Env W) :
  hold_count (registry (rlock_acquire key e)) key'
  = if decide (key = key') then Datatypes.S (hold_count (registry e) key')
    else hold_count (registry e) key'.
Proof.
  unfold hold_count, rlock_acquire. cbn [registry].
  destruct (decide (key = key')) as [-> | Hne].
  - now rewrite lookup_insert_eq.
  - now rewrite lookup_insert_ne.
Qed.

Lemma hold_count_release (key key' : Address) (e : Env W) :
  hold_count (registry (rlock_release key e)) key'
  = if decide (key = key') then Nat.pred (hold_count (registry e) key')
    else hold_count (registry e) key'.
Proof.
  unfold hold_count, rlock_release. cbn [registry].
  destruct (decide (key = key')) as [-> | Hne].
  - now rewrite lookup_insert_eq.
  - now rewrite lookup_insert_ne.
Qed.

Lemma hold_counts_after_perform (op : Operation) (h : HeapT) (key : Address) :
  hold_count (registry (env (snd (perform decode_event token_network_abi op h)))) key
  = hold_count (registry (env h)) key.
Proof.
  revert h. induction op as [| | | | | | | | | | | | | | | | op IHop]; intros h;
    try (match goal with
         | |- context [perform _ _ ?o h] =>
             destruct (emits_perform_unlocked o eq_refl h) as (Hreg & _)
         end;
         now rewrite Hreg).
  cbn [perform]. unfold lock_or_raise, with_rlock, finally, bind, this.
  set (partner := participant2 (self h)).
  specialize (IHop (heap_env (rlock_acquire partner) h)).
  destruct (perform decode_event token_network_abi op
              (heap_env (rlock_acquire partner) h)) as [r h2].
  cbn [snd] in *. unfold heap_env in *. cbn [env] in *.
  rewrite hold_count_release, IHop, hold_count_acquire.
  now destruct (decide (partner = key)).
Qed.

(** No operation keeps a lock: after any operation, however many times it
    is wrapped in [lock_or_raise] and whether it returns or raises, every
    lock of the registry is held as many times as before; and so it is after
    any sequence of operations. *)
Theorem perform_gives_locks_back (key : Address) :
  (forall (op : Operation) (h : HeapT),
      hold_count (registry (env (snd (perform decode_event token_network_abi op h)))) key
      = hold_count (registry (env h)) key)
  /\ (forall (ops : list Operation) (h : HeapT),
      hold_count (registry (env (perform_all decode_event token_network_abi ops h))) key
      = hold_count (registry (env h)) key).
Proof.
  split.
  - intros op h. apply hold_counts_after_perform.
  - intros ops. induction ops as [| op ops IH]; intros h; [reflexivity |].
    unfold perform_all in *. cbn [fold_left]. rewrite IH.
    apply hold_counts_after_perform.
Qed.

(** *** What runs under [lock_or_raise] is locked *)

Lemma submissions_locked_skip (partner : Address) (held : nat) (cs rest : list Call) :
  forallb (fun c => negb (is_lock_call c)) cs = true ->
  (0 < held)%nat ->
  submissions_locked partner held (cs ++ rest) = submissions_locked partner held rest.
Proof.
  intros Hall Hheld. induction cs as [| c cs IH]; [reflexivity |].
  cbn [forallb] in Hall. apply andb_true_iff in Hall. destruct Hall as [Hc Hall].
  assert (Hltb : (0 <? held)%nat = true) by now apply Nat.ltb_lt.
  destruct c; try discriminate Hc; cbn [app submissions_locked is_submission negb orb];
    rewrite ?Hltb; cbn [andb orb]; now apply IH.
Qed.

(** The calls of an operation, run while the partner's lock is held, do not
    change how many times it is held, and every submission among them is
    made under the lock. *)
Lemma perform_under_lock (op : Operation) (h : HeapT) :
  exists cs,
    calls (env (snd (perform decode_event token_network_abi op h))) = calls (env h) ++ cs
    /\ forall held rest,
         (0 < held)%nat ->
         submissions_locked (participant2 (self h)) held (cs ++ rest)
         = submissions_locked (participant2 (self h)) held rest.
Proof.
  revert h. induction op as [| | | | | | | | | | | | | | | | op IHop]; intros h;
    try (match goal with
         | |- context [perform _ _ ?o h] =>
             destruct (emits_perform_unlocked o eq_refl h) as (_ & cs & Hcs & Hall)
         end;
         exists cs; split; [exact Hcs |];
         intros held rest Hheld; now apply submissions_locked_skip).
  cbn [perform]. unfold lock_or_raise, with_rlock, finally, bind, this.
  set (partner := participant2 (self h)).
  destruct (IHop (heap_env (rlock_acquire partner) h)) as (cs & Hcs & Hlocked).
  pose proof (keeps_self_perform decode_event token_network_abi op
                (heap_env (rlock_acquire partner) h)) as Hself.
  destruct (perform decode_event token_network_abi op
              (heap_env (rlock_acquire partner) h)) as [r h2].
  cbn [snd] in *. unfold heap_env in *. cbn [env self] in *.
  fold partner in Hlocked.
  exists (lock_acquire partner :: cs ++ [lock_release partner]). split.
  - unfold rlock_release, rlock_acquire in *. cbn [calls] in *.
    rewrite Hcs. rewrite <- !app_assoc. reflexivity.
  - intros held rest Hheld. cbn [app submissions_locked].
    rewrite bool_decide_eq_true_2 by reflexivity.
    rewrite <- app_assoc. rewrite Hlocked by lia.
    cbn [app submissions_locked].
    rewrite bool_decide_eq_true_2 by reflexivity. reflexivity.
Qed.

(** Whatever operation runs under [lock_or_raise], and however the uses of
    [lock_or_raise] are nested in it, every submission to the ledger that it
    makes is made while the lock of the partner is held. *)
Theorem lock_or_raise_covers_submissions (op : Operation) (h : HeapT) :
  exists cs,
    calls (env (snd (perform decode_event token_network_abi (op_lock_or_raise op) h)))
    = calls (env h) ++ cs
    /\ submissions_locked (participant2 (self h)) 0 cs = true.
Proof.
  cbn [perform]. unfold lock_or_raise, with_rlock, finally, bind, this.
  set (partner := participant2 (self h)).
  destruct (perform_under_lock op (heap_env (rlock_acquire partner) h))
    as (cs & Hcs & Hlocked).
  destruct (perform decode_event token_network_abi op
              (heap_env (rlock_acquire partner) h)) as [r h2].
  cbn [snd] in *. unfold heap_env in *. cbn [env self] in *.
  fold partner in Hlocked.
  exists (lock_acquire partner :: cs ++ [lock_release partner]). split.
  - unfold rlock_release, rlock_acquire in *. cbn [calls] in *.
    rewrite Hcs. rewrite <- !app_assoc. reflexivity.
  - cbn [submissions_locked]. rewrite bool_decide_eq_true_2 by reflexivity.
    rewrite Hlocked by lia. cbn [submissions_locked].
    rewrite ?bool_decide_eq_true_2 by reflexivity. reflexivity.
Qed.

(** *** Failures of the history queries *)

Lemma settle_timeout_after_query (h : HeapT) (r : result (list RawLog)) (w' : W) :
  TokenNetwork.getLogs (token_network (self h))
    (opened_filter (token_network (self h)) (channel_unique_id (self h)))
    (world (env h)) = (r, w') ->
  settle_timeout decode_event token_network_abi h
  = match r with
    | Return events =>
        (if negb (0 <? length events)%nat then
           raise (AssertionError (Some "No matching ChannelOpen event found."%string))
         else
           raw <- lift (getitem_last events) ;;
           event <- lift (decode_event token_network_abi raw) ;;
           lift (getitem (args event) "settle_timeout"))
          (mkHeap (self h)
             (after_call
                (call_getLogs (opened_filter (token_network (self h))
                                 (channel_unique_id (self h))))
                (env h) w'))
    | Raise err =>
        (Raise err,
         mkHeap (self h)
           (after_call
              (call_getLogs (opened_filter (token_network (self h))
                               (channel_unique_id (self h))))
              (env h) w'))
    end.
Proof.
  intros Hquery.
  unfold settle_timeout, channel_identifier, this. unfold bind at 1 2 3.
  cbv beta iota. unfold ret at 1. cbv beta iota. unfold bind at 1.
  unfold opened_filter in Hquery.
  rewrite (query_from_method h _ _ _ _ Hquery). now destruct r.
Qed.

(** [settle_timeout] handles none of the failures it can meet: it raises,
    unchanged, the error of the log query or of the event decoder, and a
    [KeyError] when the decoded Opened event has no [settle_timeout]
    argument. *)
Theorem settle_timeout_surfaces_failures (h : HeapT) :
  let after w' :=
    mkHeap (self h)
      (after_call
         (call_getLogs (opened_filter (token_network (self h))
                          (channel_unique_id (self h))))
         (env h) w') in
  (forall err w',
      TokenNetwork.getLogs (token_network (self h))
        (opened_filter (token_network (self h)) (channel_unique_id (self h)))
        (world (env h)) = (Raise err, w') ->
      settle_timeout decode_event token_network_abi h = (Raise err, after w'))
  /\ (forall events w' raw err,
      query_returns (token_network (self h))
        (ChannelUniqueID.channel_id (channel_unique_id (self h))) OPENED
        (world (env h)) events w' ->
      last events = Some raw ->
      decode_event token_network_abi raw = Raise err ->
      settle_timeout decode_event token_network_abi h = (Raise err, after w'))
  /\ (forall events w' decoded,
      query_returns (token_network (self h))
        (ChannelUniqueID.channel_id (channel_unique_id (self h))) OPENED
        (world (env h)) events w' ->
      last_decodes_to decode_event token_network_abi events decoded ->
      args decoded !! "settle_timeout" = None ->
      settle_timeout decode_event token_network_abi h
      = (Raise (KeyError "settle_timeout"), after w')).
Proof.
  intros after. subst after. split; [| split].
  - intros err w' Hquery. now rewrite (settle_timeout_after_query h _ _ Hquery).
  - intros events w' raw err Hquery Hlast Hdecode.
    rewrite (settle_timeout_after_query h _ _ Hquery).
    assert (Hlen : negb (0 <? length events)%nat = false).
    { destruct events; [discriminate Hlast | reflexivity]. }
    rewrite Hlen. unfold bind, lift, getitem_last.
    rewrite Hlast; cbv beta iota. now rewrite Hdecode.
  - intros events w' decoded Hquery (raw & Hlast & Hdecode) Hkey.
    rewrite (settle_timeout_after_query h _ _ Hquery).
    assert (Hlen : negb (0 <? length events)%nat = false).
    { destruct events; [discriminate Hlast | reflexivity]. }
    rewrite Hlen. unfold bind, lift, getitem_last, getitem.
    rewrite Hlast; cbv beta iota. rewrite Hdecode; cbv beta iota.
    now rewrite Hkey.
Qed.

(** [close_block_number] raises, unchanged, the error of the log query, and
    the error of the event decoder when the one Closed entry does not
    decode. *)
Theorem close_block_number_surfaces_failures (h : HeapT) :
  let closed_filter :=
    get_filter_args_for_specific_event_from_channel
      (TokenNetwork.address (token_network (self h)))
      (ChannelUniqueID.channel_id (channel_unique_id (self h))) CLOSED in
  (forall err w',
      TokenNetwork.getLogs (token_network (self h)) closed_filter (world (env h))
      = (Raise err, w') ->
      close_block_number decode_event token_network_abi h
      = (Raise err,
         mkHeap (self h) (after_call (call_getLogs closed_filter) (env h) w')))
  /\ (forall raw w' err,
      query_returns (token_network (self h))
        (ChannelUniqueID.channel_id (channel_unique_id (self h))) CLOSED
        (world (env h)) [raw] w' ->
      decode_event token_network_abi raw = Raise err ->
      close_block_number decode_event token_network_abi h
      = (Raise err,
         mkHeap (self h) (after_call (call_getLogs closed_filter) (env h) w'))).
Proof.
  intros closed_filter. subst closed_filter. split.
  - intros err w' Hquery.
    unfold close_block_number, channel_identifier, this. unfold bind at 1 2 3.
    cbv beta iota. unfold ret at 1. cbv beta iota. unfold bind at 1.
    now rewrite (query_from_method h _ _ _ _ Hquery).
  - intros raw w' err Hquery Hdecode.
    unfold close_block_number, channel_identifier, this. unfold bind at 1 2 3.
    cbv beta iota. unfold ret at 1. cbv beta iota. unfold bind at 1.
    rewrite (query_from_method h _ _ _ _ Hquery).
    cbn [length Nat.eqb negb]. unfold bind, lift, getitem_first. cbn [head].
    now rewrite Hdecode.
Qed.

(** *** The constructed object at work *)

(** On an object that the constructor returned, [settle_timeout] asks the
    log the question that the constructor asked (same token network, same
    channel id, the Opened event); as long as the answer has an entry it does
    not fail its assertion, and what it returns or raises is the lookup of
    [settle_timeout] in the arguments of the last entry. *)
Theorem settle_timeout_repeats_constructor_query
    (tn : TN) (cuid : ChannelUniqueID.t) (e e1 e2 : Env W) (pc : PaymentChannel)
    (events : list RawLog) (w2 : W) (decoded : DecodedEvent) :
  __init__ decode_event decode_hex token_network_abi str_ChannelUniqueID tn cuid e
  = (Return pc, e1) ->
  query_returns tn (ChannelUniqueID.channel_id cuid) OPENED (world e2) events w2 ->
  last_decodes_to decode_event token_network_abi events decoded ->
  settle_timeout decode_event token_network_abi (mkHeap pc e2)
  = (getitem (args decoded) "settle_timeout",
     mkHeap pc (after_call (call_getLogs (opened_filter tn cuid)) e2 w2)).
Proof.
  intros Hinit Hquery (raw & Hlast & Hdecode).
  destruct (init_fields decode_event decode_hex token_network_abi str_ChannelUniqueID
              tn cuid e e1 pc Hinit) as (Hcuid & Htn & _).
  assert (Hquery' : TokenNetwork.getLogs (token_network (self (mkHeap pc e2)))
                      (opened_filter (token_network (self (mkHeap pc e2)))
                         (channel_unique_id (self (mkHeap pc e2))))
                      (world (env (mkHeap pc e2))) = (Return events, w2)).
  { cbn [self env]. rewrite Hcuid, Htn. exact Hquery. }
  rewrite (settle_timeout_after_query _ _ _ Hquery'). cbn [self env].
  rewrite Hcuid, Htn.
  assert (Hlen : negb (0 <? length events)%nat = false).
  { destruct events; [discriminate Hlast | reflexivity]. }
  rewrite Hlen. unfold bind, lift, getitem_last.
  rewrite Hlast; cbv beta iota. now rewrite Hdecode.
Qed.

(** On an object that the constructor returned, every state query is put to
    the token network from the node's point of view: the node's own address
    comes first, the partner second, then the channel; the answer, value or
    error, is handed on as it is. *)
Theorem constructed_queries_name_the_node_first
    (tn : TN) (cuid : ChannelUniqueID.t) (e e1 e2 : Env W) (pc : PaymentChannel) :
  __init__ decode_event decode_hex token_network_abi str_ChannelUniqueID tn cuid e
  = (Return pc, e1) ->
  let node := TokenNetwork.node_address tn in
  let partner := participant2 pc in
  let asked {A} (c : Call) (answer : result A * W) : result A * HeapT :=
    (fst answer, mkHeap pc (after_call c e2 (snd answer))) in
  detail (mkHeap pc e2)
  = asked (call_detail node partner cuid)
      (TokenNetwork.detail tn node partner cuid (world e2))
  /\ opened (mkHeap pc e2)
     = asked (call_channel_is_opened node partner cuid)
         (TokenNetwork.channel_is_opened tn node partner cuid (world e2))
  /\ closed (mkHeap pc e2)
     = asked (call_channel_is_closed node partner cuid)
         (TokenNetwork.channel_is_closed tn node partner cuid (world e2))
  /\ settled (mkHeap pc e2)
     = asked (call_channel_is_settled node partner cuid)
         (TokenNetwork.channel_is_settled tn node partner cuid (world e2))
  /\ closing_address (mkHeap pc e2)
     = asked (call_closing_address node partner cuid)
         (TokenNetwork.closing_address tn node partner cuid (world e2))
  /\ can_transfer (mkHeap pc e2)
     = asked (call_can_transfer node partner cuid)
         (TokenNetwork.can_transfer tn node partner cuid (world e2)).
Proof.
  intros Hinit node partner asked.
  destruct (init_fields decode_event decode_hex token_network_abi str_ChannelUniqueID
              tn cuid e e1 pc Hinit) as (Hcuid & Htn & Hp1).
  subst node partner asked.
  unfold detail, opened, closed, settled, closing_address, can_transfer,
         bind, this, on_env, invoke, after_call.
  cbn [self env]. rewrite Hcuid, Htn, Hp1.
  repeat split;
    match goal with
    | |- context [let (_, _) := ?call in _] => destruct call; reflexivity
    end.
Qed.

(** On an object that the constructor returned from an Opened event with two
    different participants, the partner that each of the five mutating
    operations names to the token network is the participant that is not the
    node itself. *)
Theorem constructed_partner_is_the_counterparty
    (tn : TN) (cuid : ChannelUniqueID.t) (e e1 e2 : Env W) (pc : PaymentChannel)
    (events : list RawLog) (w' : W) (decoded : DecodedEvent) (p1 p2 : Address)
    (op : Operation) :
  __init__ decode_event decode_hex token_network_abi str_ChannelUniqueID tn cuid e
  = (Return pc, e1) ->
  query_returns tn (ChannelUniqueID.channel_id cuid) OPENED (world e) events w' ->
  last_decodes_to decode_event token_network_abi events decoded ->
  lists_participants decode_hex decoded p1 p2 ->
  p1 <> p2 ->
  is_mutating op = true ->
  exists c r w2 partner,
    perform decode_event token_network_abi op (mkHeap pc e2)
    = (r, mkHeap pc (after_call c e2 w2))
    /\ is_submission c = true
    /\ partner_of c = Some partner
    /\ partner <> TokenNetwork.node_address tn
    /\ (partner = p1 \/ partner = p2).
Proof.
  intros Hinit Hquery Hlast Hlists Hdiff Hmut.
  destruct (mutating_is_one_submission decode_event token_network_abi op
              (mkHeap pc e2) Hmut) as (c & r & w2 & Hrun & Hsub & Hpartner).
  exists c, r, w2, (participant2 pc). cbn [self env] in *.
  split; [exact Hrun |]. split; [exact Hsub |]. split; [exact Hpartner |].
  destruct (init_returns decode_event decode_hex token_network_abi str_ChannelUniqueID
              tn cuid e e1 pc Hinit) as (Hrange & _).
  fold init in Hinit. unfold init in Hinit.
  rewrite (init_resolved decode_event decode_hex token_network_abi str_ChannelUniqueID
             tn cuid e events w' decoded p1 p2 Hrange Hquery Hlast Hlists) in Hinit.
  destruct (decide (TokenNetwork.node_address tn = p1)) as [H1 | H1];
    destruct (decide (TokenNetwork.node_address tn = p2)) as [H2 | H2];
    rewrite ?(bool_decide_eq_true_2 _ H1), ?(bool_decide_eq_true_2 _ H2),
            ?(bool_decide_eq_false_2 _ H1), ?(bool_decide_eq_false_2 _ H2) in Hinit;
    cbn [orb negb] in Hinit; try discriminate Hinit; try (exfalso; congruence);
    inversion Hinit; subst pc; cbn [participant2]; split; auto; congruence.
Qed.

End Operations_more.

(** ** More on [f'{n:064x}'] *)

Lemma string_length_app (s t : string) :
  String.length (s +:+ t) = (String.length s + String.length t)%nat.
Proof.
  induction s as [| a s IH]; [reflexivity |].
  change (Datatypes.S (String.length (s +:+ t))
          = Datatypes.S (String.length s + String.length t)).
  now rewrite IH.
Qed.

Lemma zeros_length (k : nat) : String.length (zeros k) = k.
Proof. induction k as [| k IH]; [reflexivity |]. cbn [zeros String.length]. now rewrite IH. Qed.

Lemma unhex_zeros (k : nat) (s : string) : unhex 0%N (zeros k +:+ s) = unhex 0%N s.
Proof.
  induction k as [| k IH]; [reflexivity |].
  change (unhex (0 * 16 + hex_value "0"%char)%N (zeros k +:+ s) = unhex 0%N s).
  exact IH.
Qed.

Lemma hex_width_bound (n : N) (k : nat) :
  (1 <= k)%nat -> (n < 16 ^ N.of_nat k)%N -> (hex_width n <= k)%nat.
Proof.
  intros Hk Hn. destruct (N.eq_dec n 0%N) as [-> | Hpos]; [exact Hk |].
  pose proof (hex_width_minimal n ltac:(lia)) as Hmin.
  assert (Hlt : (16 ^ N.of_nat (Nat.pred (hex_width n)) < 16 ^ N.of_nat k)%N)
    by (eapply N.le_lt_trans; eassumption).
  apply N.pow_lt_mono_r_iff in Hlt; [| reflexivity].
  destruct n; [contradiction | cbn [hex_width Nat.pred] in *; lia].
Qed.

(** The integer can be read back from what Python writes: for every
    non-negative [z], in the range of a channel id or above it, reading the
    characters of [f'{z:064x}'] as base-16 digits gives [z]. Two different
    non-negative integers are therefore never written alike. *)
Theorem format_064x_reads_back (z : Z) :
  0 <= z -> unhex 0%N (format_064x z) = Z.to_N z.
Proof.
  intros Hz. unfold format_064x.
  assert (Hsign : (z <? 0) = false) by (apply Z.ltb_ge; lia).
  rewrite Hsign.
  change (unhex 0%N (zeros (64 - String.length "" - String.length (format_x (Z.abs_N z)))
                   +:+ format_x (Z.abs_N z)) = Z.to_N z).
  rewrite unhex_zeros.
  assert (Habs : Z.abs_N z = Z.to_N z) by (destruct z; [reflexivity | reflexivity | lia]).
  rewrite Habs. unfold format_x. rewrite unhex_hex_fixed.
  rewrite N.mod_small by apply hex_width_enough. lia.
Qed.

(** What Python writes for [f'{z:064x}'] is never shorter than 64
    characters, sign included, and is exactly 64 characters long for every
    [z] with [-16^63 < z < 16^64]: a negative channel id, which the
    constructor refuses, would not give a longer topic, and an id above the
    range would. *)
Theorem format_064x_width (z : Z) :
  (64 <= String.length (format_064x z))%nat
  /\ (- 16 ^ 63 < z < 16 ^ 64 -> String.length (format_064x z) = 64%nat)
  /\ (16 ^ 64 <= z -> (64 < String.length (format_064x z))%nat).
Proof.
  unfold format_064x.
  rewrite !string_length_app, zeros_length. unfold format_x. rewrite hex_fixed_length.
  split; [| split].
  - destruct (z <? 0); cbn [String.length]; lia.
  - intros [Hlo Hhi]. destruct (z <? 0) eqn:Hsign; cbn [String.length].
    + apply Z.ltb_lt in Hsign.
      assert (Hw : (hex_width (Z.abs_N z) <= 63)%nat).
      { apply hex_width_bound; [lia |].
        change (16 ^ N.of_nat 63)%N with (Z.to_N (16 ^ 63)).
        rewrite <- (Z2N.id (16 ^ 63)) in Hlo by lia.
        destruct z; [lia | lia |]. cbn [Z.abs_N Z.abs Z.to_N].
        change (16 ^ 63)%Z with (Z.pos (Z.to_pos (16 ^ 63))) in Hlo.
        change (Z.to_N (16 ^ 63)) with (N.pos (Z.to_pos (16 ^ 63))). lia. }
      lia.
    + apply Z.ltb_ge in Hsign.
      assert (Hw : (hex_width (Z.abs_N z) <= 64)%nat).
      { apply hex_width_bound; [lia |].
        change (16 ^ N.of_nat 64)%N with (Z.to_N (16 ^ 64)).
        rewrite Zabs2N.abs_N_nonneg by exact Hsign.
        apply Z2N.inj_lt; lia. }
      lia.
  - intros Hbig.
    assert (Hsign : (z <? 0) = false) by (apply Z.ltb_ge; lia).
    rewrite Hsign. cbn [String.length].
    pose proof (hex_width_enough (Z.abs_N z)) as Henough.
    assert (Hge : (16 ^ N.of_nat 64 <= Z.abs_N z)%N).
    { change (16 ^ N.of_nat 64)%N with (Z.to_N (16 ^ 64)).
      rewrite Zabs2N.abs_N_nonneg by lia. apply Z2N.inj_le; lia. }
    assert (Hlt : (16 ^ N.of_nat 64 < 16 ^ N.of_nat (hex_width (Z.abs_N z)))%N)
      by (eapply N.le_lt_trans; eassumption).
    apply N.pow_lt_mono_r_iff in Hlt; [| reflexivity]. lia.
Qed.

(** ** These theorems on the sample ledger *)

Lemma init_resolves_from_last_entry_witness :
  fst (Sample.init [xbb] Sample.channel7 Sample.ledger_reopened)
  = fst (Sample.init [xbb] Sample.channel7 Sample.ledger_open)
  /\ fst (Sample.init [xbb] Sample.channel7 Sample.ledger_reopened)
     = Return Sample.channel7_of_bb.
Proof.
  split; [| reflexivity].
  apply (init_resolves_from_last_entry
           Sample.decode_event Sample.decode_hex tt Sample.str_ChannelUniqueID
           (Sample.token_network [xbb]) Sample.channel7
           (Sample.start Sample.ledger_reopened) (Sample.start Sample.ledger_open)
           [Sample.mkLogEntry OPENED 7 (Sample.opened_event "0xcc" "0xaa" 100 10)]
           (Sample.mkLogEntry OPENED 7 (Sample.opened_event "0xaa" "0xbb" 500 900))
           Sample.ledger_reopened Sample.ledger_open).
  - reflexivity.
  - reflexivity.
Defined.

Lemma init_ignores_listing_order_witness :
  fst (Sample.init [xbb] Sample.channel7 Sample.ledger_open)
  = fst (Sample.init [xbb] Sample.channel7 Sample.ledger_swapped).
Proof.
  apply (init_ignores_listing_order
           Sample.decode_event Sample.decode_hex tt Sample.str_ChannelUniqueID
           (Sample.token_network [xbb]) Sample.channel7
           (Sample.start Sample.ledger_open) (Sample.start Sample.ledger_swapped)
           Sample.ledger_open Sample.ledger_swapped
           Sample.ledger_open Sample.ledger_swapped
           (Sample.opened_event "0xaa" "0xbb" 500 900)
           (Sample.opened_event "0xbb" "0xaa" 500 900) [xaa] [xbb]).
  - reflexivity.
  - eexists. split; reflexivity.
  - exists (PyStr "0xaa"), (PyStr "0xbb"). repeat split.
  - reflexivity.
  - eexists. split; reflexivity.
  - exists (PyStr "0xbb"), (PyStr "0xaa"). repeat split.
Defined.

Lemma init_views_mirror_witness :
  participant1 Sample.channel7_of_aa = participant2 Sample.channel7_of_bb
  /\ participant2 Sample.channel7_of_aa = participant1 Sample.channel7_of_bb
  /\ participant1 Sample.channel7_of_aa = [xaa]
  /\ participant1 Sample.channel7_of_bb = [xbb].
Proof.
  apply (init_views_mirror
           Sample.decode_event Sample.decode_hex tt Sample.str_ChannelUniqueID
           (Sample.token_network [xaa]) (Sample.token_network [xbb]) Sample.channel7
           (Sample.start Sample.ledger_open)
           (mkEnv Sample.ledger_open [call_getLogs (mkFilterArgs [x01] 7 OPENED)] ∅)
           (Sample.start Sample.ledger_open)
           (mkEnv Sample.ledger_open [call_getLogs (mkFilterArgs [x01] 7 OPENED)] ∅)
           Sample.channel7_of_aa Sample.channel7_of_bb
           Sample.ledger_open Sample.ledger_open Sample.ledger_open Sample.ledger_open
           (Sample.opened_event "0xaa" "0xbb" 500 900)
           (Sample.opened_event "0xaa" "0xbb" 500 900) [xaa] [xbb]).
  - reflexivity.
  - reflexivity.
  - reflexivity.
  - eexists. split; reflexivity.
  - exists (PyStr "0xaa"), (PyStr "0xbb"). repeat split.
  - reflexivity.
  - eexists. split; reflexivity.
  - exists (PyStr "0xaa"), (PyStr "0xbb"). repeat split.
  - discriminate.
Defined.

Lemma init_surfaces_first_failure_witness :
  fst (__init__ Sample.decode_event Sample.decode_hex tt Sample.str_ChannelUniqueID
         (Sample.offline_network [xbb]) Sample.channel7
         (Sample.start Sample.ledger_open))
  = Raise (Raised "ConnectionError")
  /\ fst (__init__ Sample.failing_decode_event Sample.decode_hex tt
            Sample.str_ChannelUniqueID (Sample.token_network [xbb]) Sample.channel7
            (Sample.start Sample.ledger_open))
     = Raise (Raised "DecodeError")
  /\ fst (Sample.init [xbb] Sample.channel7 Sample.ledger_no_args)
     = Raise (KeyError "participant1")
  /\ fst (Sample.init [xbb] Sample.channel7 Sample.ledger_bad_address)
     = Raise (Raised "TypeError")
  /\ fst (Sample.init [xbb] Sample.channel7 Sample.ledger_no_participant2)
     = Raise (KeyError "participant2")
  /\ fst (Sample.init [xbb] Sample.channel7 Sample.ledger_bad_partner)
     = Raise (Raised "TypeError").
Proof.
  assert (Hrange : 0 <= ChannelUniqueID.channel_id Sample.channel7 <= UINT256_MAX)
    by (split; discriminate).
  unfold Sample.init.
  split; [| split; [| split; [| split; [| split]]]].
  - rewrite (proj1 (init_surfaces_first_failure
                      Sample.decode_event Sample.decode_hex tt
                      Sample.str_ChannelUniqueID (Sample.offline_network [xbb])
                      Sample.channel7 (Sample.start Sample.ledger_open) Hrange)
               (Raised "ConnectionError") Sample.ledger_open eq_refl).
    reflexivity.
  - rewrite (proj1 (proj2 (init_surfaces_first_failure
                             Sample.failing_decode_event Sample.decode_hex tt
                             Sample.str_ChannelUniqueID (Sample.token_network [xbb])
                             Sample.channel7 (Sample.start Sample.ledger_open) Hrange))
               Sample.ledger_open Sample.ledger_open
               (Sample.mkLogEntry OPENED 7 (Sample.opened_event "0xaa" "0xbb" 500 900))
               (Raised "DecodeError") eq_refl eq_refl eq_refl).
    reflexivity.
  - rewrite (proj1 (proj2 (proj2 (init_surfaces_first_failure
                             Sample.decode_event Sample.decode_hex tt
                             Sample.str_ChannelUniqueID (Sample.token_network [xbb])
                             Sample.channel7 (Sample.start Sample.ledger_no_args)
                             Hrange)))
               Sample.ledger_no_args Sample.ledger_no_args
               (mkDecodedEvent "ChannelOpened" ∅ 900) eq_refl
               (ex_intro _ _ (conj eq_refl eq_refl)) eq_refl).
    reflexivity.
  - rewrite (proj1 (proj2 (proj2 (proj2 (init_surfaces_first_failure
                             Sample.decode_event Sample.decode_hex tt
                             Sample.str_ChannelUniqueID (Sample.token_network [xbb])
                             Sample.channel7 (Sample.start Sample.ledger_bad_address)
                             Hrange))))
               Sample.ledger_bad_address Sample.ledger_bad_address
               (Sample.opened_event "0xzz" "0xbb" 500 900) (PyStr "0xzz")
               (Raised "TypeError") eq_refl
               (ex_intro _ _ (conj eq_refl eq_refl)) eq_refl eq_refl).
    reflexivity.
  - rewrite (proj1 (proj2 (proj2 (proj2 (proj2 (init_surfaces_first_failure
                             Sample.decode_event Sample.decode_hex tt
                             Sample.str_ChannelUniqueID (Sample.token_network [xbb])
                             Sample.channel7
                             (Sample.start Sample.ledger_no_participant2) Hrange)))))
               Sample.ledger_no_participant2 Sample.ledger_no_participant2
               (mkDecodedEvent "ChannelOpened" (<["participant1" := PyStr "0xaa"]> ∅) 900)
               (PyStr "0xaa") [xaa] eq_refl
               (ex_intro _ _ (conj eq_refl eq_refl)) eq_refl eq_refl eq_refl).
    reflexivity.
  - rewrite (proj2 (proj2 (proj2 (proj2 (proj2 (init_surfaces_first_failure
                             Sample.decode_event Sample.decode_hex tt
                             Sample.str_ChannelUniqueID (Sample.token_network [xbb])
                             Sample.channel7 (Sample.start Sample.ledger_bad_partner)
                             Hrange)))))
               Sample.ledger_bad_partner Sample.ledger_bad_partner
               (Sample.opened_event "0xbb" "0xzz" 500 900) (PyStr "0xbb") [xbb]
               (PyStr "0xzz") (Raised "TypeError") eq_refl
               (ex_intro _ _ (conj eq_refl eq_refl)) eq_refl eq_refl eq_refl eq_refl).
    reflexivity.
Defined.

Lemma constructed_identifier_is_uint256_witness :
  channel_identifier (Sample.heap Sample.ledger_closed)
  = (Return 7, Sample.heap Sample.ledger_closed)
  /\ token_address (Sample.heap Sample.ledger_closed)
     = (Return [x0f], Sample.heap Sample.ledger_closed)
  /\ 0 <= 7 <= UINT256_MAX.
Proof.
  apply (constructed_identifier_is_uint256
           Sample.decode_event Sample.decode_hex tt Sample.str_ChannelUniqueID
           (Sample.token_network [xbb]) Sample.channel7
           (Sample.start Sample.ledger_open)
           (mkEnv Sample.ledger_open [call_getLogs (mkFilterArgs [x01] 7 OPENED)] ∅)
           (Sample.start Sample.ledger_closed) Sample.channel7_of_bb).
  reflexivity.
Defined.

Lemma queries_never_submit_or_lock_witness :
  registry (env (snd (perform Sample.decode_event tt op_settle_timeout
                        (Sample.heap Sample.ledger_open)))) = ∅
  /\ exists cs,
       calls (env (snd (perform Sample.decode_event tt op_settle_timeout
                          (Sample.heap Sample.ledger_open)))) = [] ++ cs
       /\ forallb is_read_call cs = true.
Proof.
  apply (queries_never_submit_or_lock Sample.decode_event tt op_settle_timeout
           (Sample.heap Sample.ledger_open)).
  reflexivity.
Defined.

Lemma settle_timeout_surfaces_failures_witness :
  fst (settle_timeout Sample.decode_event tt
         (mkHeap (mkPaymentChannel Sample.channel7 0%nat [xbb] [xaa]
                    (Sample.offline_network [xbb]))
            (Sample.start Sample.ledger_open)))
  = Raise (Raised "ConnectionError")
  /\ fst (settle_timeout Sample.failing_decode_event tt (Sample.heap Sample.ledger_open))
     = Raise (Raised "DecodeError")
  /\ fst (settle_timeout Sample.decode_event tt (Sample.heap Sample.ledger_no_args))
     = Raise (KeyError "settle_timeout").
Proof.
  split; [| split].
  - rewrite (proj1 (settle_timeout_surfaces_failures Sample.decode_event tt
                      (mkHeap (mkPaymentChannel Sample.channel7 0%nat [xbb] [xaa]
                                 (Sample.offline_network [xbb]))
                         (Sample.start Sample.ledger_open)))
               (Raised "ConnectionError") Sample.ledger_open eq_refl).
    reflexivity.
  - rewrite (proj1 (proj2 (settle_timeout_surfaces_failures
                             Sample.failing_decode_event tt
                             (Sample.heap Sample.ledger_open)))
               Sample.ledger_open Sample.ledger_open
               (Sample.mkLogEntry OPENED 7 (Sample.opened_event "0xaa" "0xbb" 500 900))
               (Raised "DecodeError") eq_refl eq_refl eq_refl).
    reflexivity.
  - rewrite (proj2 (proj2 (settle_timeout_surfaces_failures Sample.decode_event tt
                             (Sample.heap Sample.ledger_no_args)))
               Sample.ledger_no_args Sample.ledger_no_args
               (mkDecodedEvent "ChannelOpened" ∅ 900) eq_refl
               (ex_intro _ _ (conj eq_refl eq_refl)) eq_refl).
    reflexivity.
Defined.

Lemma close_block_number_surfaces_failures_witness :
  fst (close_block_number Sample.decode_event tt
         (mkHeap (mkPaymentChannel Sample.channel7 0%nat [xbb] [xaa]
                    (Sample.offline_network [xbb]))
            (Sample.start Sample.ledger_closed)))
  = Raise (Raised "ConnectionError")
  /\ fst (close_block_number Sample.failing_decode_event tt
            (Sample.heap Sample.ledger_closed))
     = Raise (Raised "DecodeError").
Proof.
  split.
  - rewrite (proj1 (close_block_number_surfaces_failures Sample.decode_event tt
                      (mkHeap (mkPaymentChannel Sample.channel7 0%nat [xbb] [xaa]
                                 (Sample.offline_network [xbb]))
                         (Sample.start Sample.ledger_closed)))
               (Raised "ConnectionError") Sample.ledger_closed eq_refl).
    reflexivity.
  - rewrite (proj2 (close_block_number_surfaces_failures
                      Sample.failing_decode_event tt
                      (Sample.heap Sample.ledger_closed))
               (Sample.mkLogEntry CLOSED 7 (Sample.closed_event 1000))
               Sample.ledger_closed (Raised "DecodeError") eq_refl eq_refl).
    reflexivity.
Defined.

Lemma settle_timeout_repeats_constructor_query_witness :
  settle_timeout Sample.decode_event tt (Sample.heap Sample.ledger_closed)
  = (Return (PyInt 500),
     mkHeap Sample.channel7_of_bb
       (mkEnv Sample.ledger_closed [call_getLogs (mkFilterArgs [x01] 7 OPENED)] ∅)).
Proof.
  apply (settle_timeout_repeats_constructor_query
           Sample.decode_event Sample.decode_hex tt Sample.str_ChannelUniqueID
           (Sample.token_network [xbb]) Sample.channel7
           (Sample.start Sample.ledger_open)
           (mkEnv Sample.ledger_open [call_getLogs (mkFilterArgs [x01] 7 OPENED)] ∅)
           (Sample.start Sample.ledger_closed) Sample.channel7_of_bb
           Sample.ledger_open Sample.ledger_closed
           (Sample.opened_event "0xaa" "0xbb" 500 900)).
  - reflexivity.
  - reflexivity.
  - eexists. split; reflexivity.
Defined.

Lemma constructed_queries_name_the_node_first_witness :
  detail (Sample.heap Sample.ledger_open)
  = (Return tt,
     mkHeap Sample.channel7_of_bb
       (mkEnv Sample.ledger_open [call_detail [xbb] [xaa] Sample.channel7] ∅))
  /\ can_transfer (Sample.heap Sample.ledger_open)
     = (Return true,
        mkHeap Sample.channel7_of_bb
          (mkEnv Sample.ledger_open [call_can_transfer [xbb] [xaa] Sample.channel7] ∅)).
Proof.
  destruct (constructed_queries_name_the_node_first
              Sample.decode_event Sample.decode_hex tt Sample.str_ChannelUniqueID
              (Sample.token_network [xbb]) Sample.channel7
              (Sample.start Sample.ledger_open)
              (mkEnv Sample.ledger_open [call_getLogs (mkFilterArgs [x01] 7 OPENED)] ∅)
              (Sample.start Sample.ledger_open) Sample.channel7_of_bb eq_refl)
    as (Hdetail & _ & _ & _ & _ & Hcan).
  split; [exact Hdetail | exact Hcan].
Defined.

Lemma constructed_partner_is_the_counterparty_witness :
  exists c r w2 partner,
    perform Sample.decode_event tt (op_unlock []) (Sample.heap Sample.ledger_closed)
    = (r, mkHeap Sample.channel7_of_bb
            (after_call c (Sample.start Sample.ledger_closed) w2))
    /\ is_submission c = true
    /\ partner_of c = Some partner
    /\ partner <> [xbb]
    /\ (partner = [xaa] \/ partner = [xbb]).
Proof.
  apply (constructed_partner_is_the_counterparty
           Sample.decode_event Sample.decode_hex tt Sample.str_ChannelUniqueID
           (Sample.token_network [xbb]) Sample.channel7
           (Sample.start Sample.ledger_open)
           (mkEnv Sample.ledger_open [call_getLogs (mkFilterArgs [x01] 7 OPENED)] ∅)
           (Sample.start Sample.ledger_closed) Sample.channel7_of_bb
           Sample.ledger_open Sample.ledger_open
           (Sample.opened_event "0xaa" "0xbb" 500 900) [xaa] [xbb] (op_unlock [])).
  - reflexivity.
  - reflexivity.
  - eexists. split; reflexivity.
  - exists (PyStr "0xaa"), (PyStr "0xbb"). repeat split.
  - discriminate.
  - reflexivity.
Defined.

Lemma format_064x_reads_back_witness :
  unhex 0%N (format_064x 255) = 255%N /\ unhex 0%N (format_064x (2 ^ 256)) = (2 ^ 256)%N.
Proof.
  split.
  - apply (format_064x_reads_back 255). discriminate.
  - apply (format_064x_reads_back (2 ^ 256)). discriminate.
Defined.

Lemma format_064x_width_witness :
  String.length (format_064x (-255)) = 64%nat
  /\ (64 < String.length (format_064x (2 ^ 256)))%nat.
Proof.
  split.
  - apply (proj1 (proj2 (format_064x_width (-255)))). split; reflexivity.
  - apply (proj2 (proj2 (format_064x_width (2 ^ 256)))). discriminate.
Defined.
